(** * Ecoforest ecoGEO register/coil engine: a shallow embedding of
      [custom_components/ecoforest_ecogeo/overrides/api.py]

    The development follows the Python source function by function.
    Python values that can raise are modelled in an error monad whose
    errors are the Python exception classes the code can meet; floats are
    IEEE binary64 (Rocq's primitive floats), integers are [Z], strings are
    [string] (ASCII text), dictionaries keyed by addresses are [gmap Z],
    dictionaries iterated in insertion order are association lists. *)

From Stdlib Require Import ZArith Lia List Ascii String HexString Floats.
From stdpp Require Import base option list gmap strings.

Set Warnings "-inexact-float".
#[local] Open Scope string_scope.
#[local] Open Scope Z_scope.

(* ===================================================================== *)
(** * The Python runtime the module relies on *)
(* ===================================================================== *)

Module Py.

(** Exceptions the code can raise.  [Exception msg] is the bare
    [raise Exception(msg)] of the source; the others are raised by the
    builtins ([dict] and [list] subscription, [int], [/]). *)
Inductive exn : Type :=
  | Exception (msg : string)
  | KeyError
  | IndexError
  | ValueError
  | OverflowError
  | TypeError
  | ZeroDivisionError.

Inductive result (A : Type) : Type :=
  | Ok (a : A)
  | Raise (e : exn).
Arguments Ok {A} a.
Arguments Raise {A} e.

Definition rbind {A B} (r : result A) (k : A -> result B) : result B :=
  match r with
  | Ok a => k a
  | Raise e => Raise e
  end.

Definition of_option {A} (e : exn) (o : option A) : result A :=
  match o with
  | Some a => Ok a
  | None => Raise e
  end.

(** ** [int(s, base)] on text *)

(** [Py_ISSPACE] on ASCII: space, TAB, LF, VT, FF, CR. *)
Definition is_space (c : ascii) : bool :=
  let n := Z.of_N (N_of_ascii c) in
  (n =? 32) || ((9 <=? n) && (n <=? 13)).

(** The digit table of [int]: ['0'..'9'] are 0..9, letters of either case
    are 10..35, every other character is no digit. *)
Definition digit_value (c : ascii) : option Z :=
  let n := Z.of_N (N_of_ascii c) in
  if (48 <=? n) && (n <=? 57) then Some (n - 48)
  else if (97 <=? n) && (n <=? 122) then Some (n - 87)
  else if (65 <=? n) && (n <=? 90) then Some (n - 55)
  else None.

Definition is_digit_in (base : Z) (c : ascii) : bool :=
  match digit_value c with
  | Some d => d <? base
  | None => false
  end.

Fixpoint lstrip (s : string) : string :=
  match s with
  | String c s' => if is_space c then lstrip s' else s
  | EmptyString => EmptyString
  end.

Fixpoint all_space (s : string) : bool :=
  match s with
  | String c s' => is_space c && all_space s'
  | EmptyString => true
  end.

(** The scanning loop of [long_from_string_base]: digits below [base] and
    single underscores between them.  [prev] tells that the previous
    character was an underscore, [n] counts the digits, [acc] is the value
    read so far.  [None] is the doubled underscore; otherwise the value,
    the digit count, the final [prev] and the unread rest. *)
Fixpoint scan_digits (base : Z) (s : string) (prev : bool) (n : nat) (acc : Z)
  : option (Z * nat * bool * string) :=
  match s with
  | EmptyString => Some (acc, n, prev, EmptyString)
  | String c s' =>
      if Ascii.eqb c "_" then
        if prev then None else scan_digits base s' true n acc
      else
        match digit_value c with
        | Some d =>
            if d <? base then scan_digits base s' false (S n) (acc * base + d)
            else Some (acc, n, prev, s)
        | None => Some (acc, n, prev, s)
        end
  end.

(** Default of [sys.get_int_max_str_digits()]; it only limits bases that
    are no power of two. *)
Definition int_max_str_digits : nat := 4300.

Definition is_binary_base (base : Z) : bool := Z.land base (base - 1) =? 0.

(** The [0x]/[0X] prefix of base 16 and the one underscore allowed after
    it. *)
Definition strip_prefix (base : Z) (s : string) : string :=
  match s with
  | String c0 (String c1 s') =>
      if (base =? 16) && Ascii.eqb c0 "0" && (Ascii.eqb c1 "x" || Ascii.eqb c1 "X")
      then match s' with
           | String c2 s'' => if Ascii.eqb c2 "_" then s'' else s'
           | EmptyString => s'
           end
      else s
  | _ => s
  end.

Definition split_sign (s : string) : bool * string :=
  match s with
  | String c s' =>
      if Ascii.eqb c "+" then (false, s')
      else if Ascii.eqb c "-" then (true, s')
      else (false, s)
  | EmptyString => (false, s)
  end.

(** [int(s, base)] for an explicit base 10 or 16: [ValueError] on
    anything that is no integer literal of that base. *)
Definition int_of_str (base : Z) (s : string) : result Z :=
  let '(neg, s1) := split_sign (lstrip s) in
  let s2 := strip_prefix base s1 in
  match s2 with
  | String c _ =>
      if Ascii.eqb c "_" then Raise ValueError
      else
        match scan_digits base s2 false 0 0 with
        | None => Raise ValueError
        | Some (v, n, prev, rest) =>
            if prev then Raise ValueError
            else if Nat.eqb n 0 then Raise ValueError
            else if negb (all_space rest) then Raise ValueError
            else if negb (is_binary_base base) && Nat.ltb int_max_str_digits n
                 then Raise ValueError
            else Ok (if neg then - v else v)
        end
  | EmptyString => Raise ValueError
  end.

(** ** [hex], slices, list subscription *)

(** [hex(n)]: ["0x.."] in lowercase, ["-0x.."] for a negative number. *)
Definition hex (n : Z) : string := HexString.of_Z n.

Fixpoint drop_str (k : nat) (s : string) : string :=
  match k, s with
  | O, _ => s
  | S k', String _ s' => drop_str k' s'
  | S _, EmptyString => EmptyString
  end.

(** [s[k:]] for [k >= 0]. *)
Definition slice_from (k : nat) (s : string) : string := drop_str k s.

(** [s[-k:]] for [k > 0]: the last [k] characters, or all of [s] when it
    is shorter. *)
Definition slice_last (k : nat) (s : string) : string :=
  drop_str (String.length s - k) s.

(** [l[i]]: a negative index counts from the end. *)
Definition list_item {A} (l : list A) (i : Z) : result A :=
  let len := Z.of_nat (List.length l) in
  if (0 <=? i) && (i <? len) then of_option IndexError (l !! Z.to_nat i)
  else if (- len <=? i) && (i <? 0) then of_option IndexError (l !! Z.to_nat (len + i))
  else Raise IndexError.

(** ** Numbers *)

Definition prec : Z := 53.
Definition emax : Z := 1024.

(** The binary64 nearest to an integer. *)
Definition to_float (n : Z) : float :=
  SF2Prim (binary_normalize prec emax n 0 false).

(** [float(n)] for an integer: the nearest binary64, [OverflowError] when
    there is none. *)
Definition float_of_int (n : Z) : result float :=
  match binary_normalize prec emax n 0 false with
  | S754_infinity _ => Raise OverflowError
  | _ => Ok (to_float n)
  end.

(** [int(x)] for a float: truncation toward zero; [ValueError] on NaN,
    [OverflowError] on an infinity. *)
Definition int_of_float (x : float) : result Z :=
  match Prim2SF x with
  | S754_zero _ => Ok 0
  | S754_finite s m e =>
      let mag := if 0 <=? e then Z.shiftl (Z.pos m) e
                 else Z.shiftr (Z.pos m) (- e) in
      Ok (if s then - mag else mag)
  | S754_infinity _ => Raise OverflowError
  | S754_nan => Raise ValueError
  end.

(** An integer of at most 53 bits is a binary64 as it stands. *)
Definition fits_mantissa (n : Z) : bool := Z.abs n <? 2 ^ 53.

(** [a / b] on integers, the correctly rounded quotient, along the paths
    of [long_true_divide]: a zero divisor, a zero dividend, operands that
    both are exact floats (one float division), and the general case. *)
Definition int_truediv (a b : Z) : result float :=
  match a, b with
  | _, Z0 => Raise ZeroDivisionError
  | Z0, _ => Ok (if b <? 0 then (-0)%float else 0%float)
  | _, _ =>
      if fits_mantissa a && fits_mantissa b then Ok (to_float a / to_float b)%float
      else
        let sf z := S754_finite (z <? 0) (Z.to_pos (Z.abs z)) 0 in
        match SFdiv prec emax (sf a) (sf b) with
        | S754_infinity _ => Raise OverflowError
        | x => Ok (SF2Prim x)
        end
  end.

End Py.

Import Py.

Notation "'let!' x ':=' r 'in' k" := (rbind r (fun x => k))
  (at level 10, x name, r at level 100, k at level 200).

(* ===================================================================== *)
(** * Constants and tables of the module *)
(* ===================================================================== *)

Definition MODEL_ADDRESS : Z := 5323.
Definition MODEL_LENGTH : Z := 6.

Definition OP_TYPE_GET_SWITCH : Z := 2001.
Definition OP_TYPE_SET_SWITCH : Z := 2011.
Definition OP_TYPE_GET_REGISTER : Z := 2002.
Definition OP_TYPE_SET_REGISTER : Z := 2012.

(** [class DataTypes]: [Register = 1], [Coil = 2]. *)
Inductive DataTypes : Type := Register | Coil.

Definition DataTypes_value (dt : DataTypes) : Z :=
  match dt with Register => 1 | Coil => 2 end.

(** [class Operations]. *)
Module Operations.
Definition Get (dt : DataTypes) : Z :=
  match dt with Coil => 2001 | Register => 2002 end.
Definition Set_ (dt : DataTypes) : Z :=
  match dt with Coil => 2011 | Register => 2012 end.
End Operations.

(** An entry of [REQUESTS]: [{"address": a, "length": n}], one of them
    with an ["op"] key that nothing reads. *)
Record read_request : Type := ReadRequest {
  rq_address : Z;
  rq_length : Z;
  rq_op : option Z
}.

Definition REQUESTS (dt : DataTypes) : list read_request :=
  match dt with
  | Coil =>
      [ ReadRequest 1 41 None;
        ReadRequest 83 1 None;
        ReadRequest 212 15 None ]
  | Register =>
      [ ReadRequest 11 31 None;
        ReadRequest MODEL_ADDRESS MODEL_LENGTH (Some OP_TYPE_GET_REGISTER) ]
  end.

(** One poll's raw data: [state = {DataTypes.Coil: {}, DataTypes.Register: {}}],
    each inner dictionary from address to the raw string of the device. *)
Record AddressSpace : Type := mkSpace {
  coils : gmap Z string;
  registers : gmap Z string
}.

Definition space (st : AddressSpace) (dt : DataTypes) : gmap Z string :=
  match dt with Coil => coils st | Register => registers st end.

(** [state[dt].update(d)]: the entries of [d] win. *)
Definition space_update (st : AddressSpace) (dt : DataTypes) (d : gmap Z string)
  : AddressSpace :=
  match dt with
  | Coil => mkSpace (d ∪ coils st) (registers st)
  | Register => mkSpace (coils st) (d ∪ registers st)
  end.

(** [data[dt][address]]: [KeyError] on an address that was not read. *)
Definition raw_at (st : AddressSpace) (dt : DataTypes) (address : Z) : result string :=
  of_option KeyError (space st dt !! address).

(** Values stored in [device_info]. *)
Inductive value : Type :=
  | VInt (z : Z)
  | VFloat (x : float)
  | VBool (b : bool)
  | VNone.

(** A value of [MAPPING]: a dictionary whose keys ["address"], ["is_number"],
    ["min"], ["max"], ["step"] and ["value_fn"] may be missing. *)
Record definition : Type := mkDefinition {
  data_type : DataTypes;
  type_ : string;
  address : option Z;
  entity_type : string;
  is_number : option bool;
  min_ : option Z;
  max_ : option Z;
  step : option float;
  value_fn : option (gmap string value -> AddressSpace -> result value)
}.

(** [definition[key]] on a key that may be missing. *)
Definition item {A} (o : option A) : result A := of_option KeyError o.

(* ===================================================================== *)
(** * The value codec *)
(* ===================================================================== *)

(** [parse_ecoforest_int]:
<<
    result = int(value, 16)
    return result if result <= 32768 else result - 65536
>> *)
Definition parse_ecoforest_int (value : string) : result Z :=
  let! result := int_of_str 16 value in
  Ok (if result <=? 32768 then result else result - 65536).

(** [parse_ecoforest_bool]: [bool(int(value))]. *)
Definition parse_ecoforest_bool (value : string) : result bool :=
  let! n := int_of_str 10 value in
  Ok (negb (n =? 0)).

(** [parse_ecoforest_float]: [self.parse_ecoforest_int(value) / 10]. *)
Definition parse_ecoforest_float (value : string) : result float :=
  let! n := parse_ecoforest_int value in
  int_truediv n 10.

(** [convert_to_ecoforest_int] on a float:
<<
    value = int(value * 10)
    if value < 0:
        value += 65536
    return ("0000" + hex(value)[2:])[-4:]
>> *)
Definition convert_to_ecoforest_int (value : float) : result string :=
  let! value := int_of_float (value * 10)%float in
  let value := if value <? 0 then value + 65536 else value in
  Ok (slice_last 4 (String.append "0000" (slice_from 2 (hex value)))).

(** [string.digits] and [string.ascii_uppercase], one string per
    character as [[*s]] gives them. *)
Definition string_digits : string := "0123456789".
Definition string_ascii_uppercase : string := "ABCDEFGHIJKLMNOPQRSTUVWXYZ".

Definition chars (s : string) : list string :=
  map (fun c => String c EmptyString) (list_ascii_of_string s).

Definition model_dictionary : list string :=
  ["--"] ++ chars string_digits ++ chars string_ascii_uppercase.

(** [range(a, a + n)] as a list. *)
Definition range (a n : Z) : list Z :=
  map (fun k => a + Z.of_nat k) (seq 0 (Z.to_nat n)).

(** The loop of [parse_model_name], [result] being the accumulator. *)
Fixpoint model_loop (data : AddressSpace) (addresses : list Z) (result : string)
  : Py.result string :=
  match addresses with
  | [] => Ok result
  | address :: rest =>
      let! raw := raw_at data Register address in
      let! index := parse_ecoforest_int raw in
      let! symbol := list_item model_dictionary index in
      model_loop data rest (String.append result symbol)
  end.

Definition parse_model_name (data : AddressSpace) : result string :=
  model_loop data (range MODEL_ADDRESS MODEL_LENGTH) "".

(* ===================================================================== *)
(** * The alarm scan *)
(* ===================================================================== *)

Definition alarm_registers : list Z :=
  [ 1; 2; 3; 7; 8; 9; 10; 11; 12; 13; 14; 15; 16; 17; 18; 19; 20; 21;
    24; 25; 26; 33; 34; 36; 37; 38; 39; 40; 41;
    212; 213; 214; 215; 216; 217; 218; 219; 220; 221; 222; 223; 224; 225; 226 ].

(** The loop of [get_alarm]:
<<
    for address in alarm_registers:
        if data[DataTypes.Coil][address] == "0":
            continue
        return address
    return 0
>> *)
Fixpoint alarm_loop (data : AddressSpace) (addresses : list Z) : result Z :=
  match addresses with
  | [] => Ok 0
  | address :: rest =>
      let! raw := raw_at data Coil address in
      if String.eqb raw "0" then alarm_loop data rest else Ok address
  end.

Definition get_alarm (data : AddressSpace) : result Z :=
  alarm_loop data alarm_registers.

(* ===================================================================== *)
(** * The field mapping table *)
(* ===================================================================== *)

Definition temperature_field (a : Z) : definition :=
  mkDefinition Register "float" (Some a) "temperature" None None None None None.

Definition number_field (a lo hi : Z) : definition :=
  mkDefinition Register "float" (Some a) "temperature"
    (Some true) (Some lo) (Some hi) (Some 0.1%float) None.

Definition coil_field (a : Z) (category : string) : definition :=
  mkDefinition Coil "boolean" (Some a) category None None None None None.

(** [MAPPING], in the order of the dictionary display, which is the order
    [MAPPING.items()] iterates in. *)
Definition MAPPING : list (string * definition) :=
  [ ("t_dhw", temperature_field 11);
    ("t_outdoor", temperature_field 20);
    ("button_reset_alarms", coil_field 83 "button");
    ("switch_dhw", coil_field 213 "switch");
    ("number_dhw_setpoint", number_field 40 0 65);
    ("number_dhw_dt_start", number_field 41 2 25);
    ("alarm",
      mkDefinition Coil "custom" None "enum" None None None None
        (Some (fun data raw_data => let! a := get_alarm raw_data in Ok (VInt a)))) ].

(** [MAPPING[name]]. *)
Fixpoint assoc {A} (name : string) (table : list (string * A)) : option A :=
  match table with
  | [] => None
  | (k, v) :: rest => if String.eqb k name then Some v else assoc name rest
  end.

(** [name in MAPPING.keys()]. *)
Definition mapping_has (name : string) : bool :=
  match assoc name MAPPING with Some _ => true | None => false end.

(* ===================================================================== *)
(** * The snapshot build of [get] *)
(* ===================================================================== *)

(** [v == x] for a value [v] of [device_info] and a float [x]: floats
    compare as IEEE numbers, an integer (or a boolean, which is one)
    equals [x] when [x] is that very integer, [None] equals no float. *)
Definition int_eq_float (z : Z) (x : float) : bool :=
  match int_of_float x with
  | Ok t =>
      (t =? z) &&
      match float_of_int t with
      | Ok y => PrimFloat.eqb y x
      | Raise _ => false
      end
  | Raise _ => false
  end.

Definition value_eq_float (v : value) (x : float) : bool :=
  match v with
  | VFloat y => PrimFloat.eqb y x
  | VInt z => int_eq_float z x
  | VBool b => int_eq_float (if b then 1 else 0) x
  | VNone => false
  end.

(** The [match definition["type"]] of the first loop: [Some value] when
    the field is stored, [None] on the two [continue] branches. *)
Definition decode_field (state : AddressSpace) (d : definition)
  : result (option value) :=
  if String.eqb (type_ d) "int" then
    let! a := item (address d) in
    let! raw := raw_at state (data_type d) a in
    let! v := parse_ecoforest_int raw in
    Ok (Some (VInt v))
  else if String.eqb (type_ d) "float" then
    let! a := item (address d) in
    let! raw := raw_at state (data_type d) a in
    let! v := parse_ecoforest_float raw in
    Ok (Some (VFloat v))
  else if String.eqb (type_ d) "boolean" then
    let! a := item (address d) in
    let! raw := raw_at state (data_type d) a in
    let! v := parse_ecoforest_bool raw in
    Ok (Some (VBool v))
  else Ok None.

(** First loop over [MAPPING.items()] (lines 112-126). *)
Fixpoint decode_loop (state : AddressSpace) (table : list (string * definition))
    (device_info : gmap string value) : result (gmap string value) :=
  match table with
  | [] => Ok device_info
  | (name, d) :: rest =>
      let! v := decode_field state d in
      match v with
      | Some v => decode_loop state rest (<[name := v]> device_info)
      | None => decode_loop state rest device_info
      end
  end.

Definition SENTINEL : float := (-999.9)%float.

(** Second loop over [MAPPING.items()] (lines 128-135): the sentinel of a
    temperature becomes [None], then a custom field is computed. *)
Fixpoint derive_loop (state : AddressSpace) (table : list (string * definition))
    (device_info : gmap string value) : result (gmap string value) :=
  match table with
  | [] => Ok device_info
  | (name, d) :: rest =>
      let! device_info :=
        (if String.eqb (entity_type d) "temperature" then
           let! v := of_option KeyError (device_info !! name) in
           Ok (if value_eq_float v SENTINEL
               then <[name := VNone]> device_info else device_info)
         else Ok device_info) in
      if negb (String.eqb (type_ d) "custom") then derive_loop state rest device_info
      else
        let! f := item (value_fn d) in
        let! v := f device_info state in
        derive_loop state rest (<[name := v]> device_info)
  end.

(** Lines 111-135 of [get]: [device_info] from the polled [state]. *)
Definition build_device_info (state : AddressSpace) : result (gmap string value) :=
  let! device_info := decode_loop state MAPPING ∅ in
  derive_loop state MAPPING device_info.

(** Modelled from the spec: [EcoGeoDevice] of [overrides/device.py], which
    is not among the sources.  The spec's DeviceSnapshot is "a mapping from
    field name to typed value, plus a decoded model-name string";
    [EcoGeoDevice.build(model_name, device_info)] is taken to store its two
    arguments. *)
Record EcoGeoDevice : Type := build {
  model_name : string;
  info : gmap string value
}.

(** Lines 111-139 of [get]: the device from the polled [state].  The
    model name is an argument of the final call, so it is decoded after
    [device_info] is complete. *)
Definition snapshot (state : AddressSpace) : result EcoGeoDevice :=
  let! device_info := build_device_info state in
  let! model := parse_model_name state in
  Ok (build model device_info).

(* ===================================================================== *)
(** * The operations that talk to the device *)
(* ===================================================================== *)

(** A key or value of the form data sent to the device. *)
Inductive pyval : Type :=
  | PInt (z : Z)
  | PStr (s : string).

(** The [data] dictionary of a request: the three fixed keys, and the
    additional entry of a write ([int(on): int(on)] or
    [converted_value: converted_value]). *)
Record request : Type := mkRequest {
  idOperacion : Z;
  dir : Z;
  num : Z;
  entry : option (pyval * pyval)
}.

(** [int(on)] for [on: bool | None]. *)
Definition int_of_flag (on : option bool) : result Z :=
  match on with
  | Some true => Ok 1
  | Some false => Ok 0
  | None => Raise TypeError
  end.

(** The loop of [_load_data]:
<<
    for i in range(address, address+length):
        result[i] = response[index]
        index += 1
>> *)
Fixpoint load_loop (response : list string) (addresses : list Z) (index : nat)
    (result : gmap Z string) : Py.result (gmap Z string) :=
  match addresses with
  | [] => Ok result
  | i :: rest =>
      let! raw := of_option IndexError (response !! index) in
      load_loop response rest (S index) (<[i := raw]> result)
  end.

Section Api.

(** The inherited [EcoforestApi._request] is the transport: it posts
    [data] and answers with the list of raw values that [_parse] takes
    from the reply, or raises.  [W] is whatever the device and the
    network are; a call may change it. *)
Context {W : Type}.
Variable _request : W -> request -> result (list string) * W.

(** What an operation runs in: the outer world and the requests sent so
    far, in order. *)
Record session : Type := mkSession {
  world : W;
  sent : list request
}.

Definition io (A : Type) : Type := session -> result A * session.

Definition ret {A} (a : A) : io A := fun s => (Ok a, s).

Definition raise {A} (e : exn) : io A := fun s => (Raise e, s).

Definition bind {A B} (m : io A) (k : A -> io B) : io B :=
  fun s =>
    match m s with
    | (Ok a, s') => k a s'
    | (Raise e, s') => (Raise e, s')
    end.

Definition lift {A} (r : result A) : io A := fun s => (r, s).

(** [await self._request(data=data)]. *)
Definition send (data : request) : io (list string) :=
  fun s =>
    let '(r, w) := _request (world s) data in
    (r, mkSession w (sent s ++ [data])).

Definition _load_data (address length op_type : Z) : io (gmap Z string) :=
  bind (send (mkRequest op_type address length None)) (fun response =>
  lift (load_loop response (range address length) 0 ∅)).

(** [for request in REQUESTS[dt]: state[dt].update(await self._load_data(..))]. *)
Fixpoint load_requests (dt : DataTypes) (requests : list read_request)
    (state : AddressSpace) : io AddressSpace :=
  match requests with
  | [] => ret state
  | rq :: rest =>
      bind (_load_data (rq_address rq) (rq_length rq) (Operations.Get dt))
        (fun d => load_requests dt rest (space_update state dt d))
  end.

(** [for dt in [DataTypes.Coil, DataTypes.Register]: ...]. *)
Fixpoint load_types (dts : list DataTypes) (state : AddressSpace) : io AddressSpace :=
  match dts with
  | [] => ret state
  | dt :: rest =>
      bind (load_requests dt (REQUESTS dt) state) (load_types rest)
  end.

Definition poll : io AddressSpace :=
  load_types [Coil; Register] (mkSpace ∅ ∅).

Definition get : io EcoGeoDevice :=
  bind poll (fun state => lift (snapshot state)).

(** [turn_switch]:
<<
  if name not in MAPPING.keys():
      raise Exception("unknown switch")
  await self._request(data={"idOperacion": OP_TYPE_SET_SWITCH,
      "dir": MAPPING[name]["address"], "num": 1, int(on): int(on)})
  return await self.get()
>> *)
Definition turn_switch (name : string) (on : option bool) : io EcoGeoDevice :=
  if negb (mapping_has name) then raise (Exception "unknown switch")
  else
    bind (lift (let! d := of_option KeyError (assoc name MAPPING) in
                let! a := item (address d) in
                let! flag := int_of_flag on in
                Ok (mkRequest OP_TYPE_SET_SWITCH a 1 (Some (PInt flag, PInt flag)))))
      (fun data =>
    bind (send data) (fun _ => get)).

(** [set_numeric_value]:
<<
  if name not in MAPPING.keys():
      raise Exception("unknown register")
  converted_value = self.convert_to_ecoforest_int(value)
  await self._request(data={"idOperacion": OP_TYPE_SET_REGISTER,
      "dir": MAPPING[name]["address"], "num": 1,
      converted_value: converted_value})
  return await self.get()
>> *)
Definition set_numeric_value (name : string) (value : float) : io EcoGeoDevice :=
  if negb (mapping_has name) then raise (Exception "unknown register")
  else
    bind (lift (let! converted_value := convert_to_ecoforest_int value in
                let! d := of_option KeyError (assoc name MAPPING) in
                let! a := item (address d) in
                Ok (mkRequest OP_TYPE_SET_REGISTER a 1
                      (Some (PStr converted_value, PStr converted_value)))))
      (fun data =>
    bind (send data) (fun _ => get)).

End Api.

(** A device that answers every read with zeros (["0"] per coil,
    ["0000"] per register) and acknowledges every write; it has no state. *)
Definition zero_device (w : unit) (data : request) : result (list string) * unit :=
  let op := idOperacion data in
  if (op =? OP_TYPE_GET_SWITCH) then (Ok (repeat "0" (Z.to_nat (num data))), w)
  else if (op =? OP_TYPE_GET_REGISTER) then (Ok (repeat "0000" (Z.to_nat (num data))), w)
  else (Ok [], w).

(** A transport that is down: every request raises. *)
Definition dead_device (w : unit) (data : request) : result (list string) * unit :=
  (Raise (Exception "connection failed"), w).

Definition fresh : session (W := unit) := mkSession tt [].

(* ===================================================================== *)
(** * Vocabulary of the statements *)
(* ===================================================================== *)

(** A hexadecimal digit and its value. *)
Definition hex_digit (c : ascii) : option Z :=
  match digit_value c with
  | Some d => if d <? 16 then Some d else None
  | None => None
  end.

(** The unsigned 16-bit number that four hex digit values spell. *)
Definition unsigned16 (d3 d2 d1 d0 : Z) : Z := 4096 * d3 + 256 * d2 + 16 * d1 + d0.

Definition str4 (c3 c2 c1 c0 : ascii) : string :=
  String c3 (String c2 (String c1 (String c0 EmptyString))).

(** The lowercase hex digit of a value below 16. *)
Definition hex_char (d : Z) : ascii :=
  if d <? 10 then ascii_of_N (Z.to_N (48 + d)) else ascii_of_N (Z.to_N (87 + d)).

Definition is_lower_hex (c : ascii) : bool :=
  let n := Z.of_N (N_of_ascii c) in
  ((48 <=? n) && (n <=? 57)) || ((97 <=? n) && (n <=? 102)).

(** The four hex digits of a number below 65536, most significant first. *)
Definition hex4 (n : Z) : string :=
  str4 (hex_char (n / 4096 mod 16)) (hex_char (n / 256 mod 16))
       (hex_char (n / 16 mod 16)) (hex_char (n mod 16)).

Definition all_chars (p : ascii -> bool) (s : string) : bool :=
  forallb p (list_ascii_of_string s).

(** [v / 10.0] for an integer [v]. *)
Definition tenths (v : Z) : result float :=
  let! x := float_of_int v in
  Ok (x / 10)%float.

(** [parse_ecoforest_int(convert_to_ecoforest_int(v / 10.0))]. *)
Definition round_trip (v : Z) : result Z :=
  let! x := tenths v in
  let! raw := convert_to_ecoforest_int x in
  parse_ecoforest_int raw.

Definition round_trips (v : Z) : bool :=
  match round_trip v with
  | Ok r => r =? v
  | Raise _ => false
  end.

(** [round_trips] on each of the [2^k] integers from [lo] on. *)
Fixpoint round_trips_block (k : nat) (lo : Z) : bool :=
  match k with
  | O => round_trips lo
  | S k' => round_trips_block k' lo && round_trips_block k' (lo + 2 ^ Z.of_nat k')
  end.

(** The alphabet as the specification words it: index 0 is the
    placeholder, 1 to 10 are the digits, 11 to 36 the uppercase letters. *)
Definition symbol (i : Z) : string :=
  if i =? 0 then "--"
  else if i <=? 10 then String (ascii_of_N (Z.to_N (48 + (i - 1)))) EmptyString
  else String (ascii_of_N (Z.to_N (65 + (i - 11)))) EmptyString.

(** What Python's subscription makes of an index: a negative one counts
    from the end of the 37 symbols. *)
Definition in_alphabet (i : Z) : bool := (-37 <=? i) && (i <=? 36).
Definition wrapped (i : Z) : Z := if i <? 0 then i + 37 else i.

(** The six model registers of [data] hold raw values that decode to the
    indices [indices], in address order. *)
Definition model_block (data : AddressSpace) (indices : list Z) : Prop :=
  Forall2 (fun a i => exists raw, registers data !! a = Some raw
                                  /\ parse_ecoforest_int raw = Ok i)
          (range MODEL_ADDRESS MODEL_LENGTH) indices.

Definition concat_symbols (l : list string) : string :=
  fold_right String.append EmptyString l.

(** A register space whose model block holds the given raw values. *)
Definition with_model (raws : list string) : AddressSpace :=
  mkSpace ∅ (list_to_map (zip (range MODEL_ADDRESS MODEL_LENGTH) raws)).

(** An address lies in one of the curated read ranges of its data type. *)
Definition in_request (a : Z) (rq : read_request) : bool :=
  (rq_address rq <=? a) && (a <? rq_address rq + rq_length rq).

Definition covered (dt : DataTypes) (a : Z) : bool :=
  existsb (in_request a) (REQUESTS dt).

(** A coil space where the listed addresses hold ["1"] and every other
    address of the alarm table holds ["0"]. *)
Definition coils_with (active : list Z) : AddressSpace :=
  mkSpace
    (list_to_map (map (fun a => (a, "1")) active ++ map (fun a => (a, "0")) alarm_registers))
    ∅.

(** A poll's data: all coils ["0"], all registers ["0000"], except the
    registers listed. *)
Definition zero_space (regs : list (Z * string)) : AddressSpace :=
  mkSpace
    (list_to_map (map (fun a => (a, "0")) (range 1 41 ++ range 83 1 ++ range 212 15)))
    (list_to_map (regs ++ map (fun a => (a, "0000")) (range 11 31 ++ range 5323 6))).

(** Which fields a write names. *)
Definition is_coil_field (name : string) : bool :=
  match assoc name MAPPING with
  | Some d => match data_type d with Coil => true | Register => false end
  | None => false
  end.

Definition is_register_field (name : string) : bool :=
  match assoc name MAPPING with
  | Some d => match data_type d with Register => true | Coil => false end
  | None => false
  end.

(* ===================================================================== *)
(** * The reply parser *)
(* ===================================================================== *)

Definition newline : ascii := "010"%char.

(** [s.split(sep)] for a separator of one character: the pieces between
    its occurrences, one more than there are occurrences. *)
Fixpoint str_split (sep : ascii) (s : string) : list string :=
  match s with
  | EmptyString => [EmptyString]
  | String c s' =>
      if Ascii.eqb c sep then EmptyString :: str_split sep s'
      else match str_split sep s' with
           | piece :: pieces => String c piece :: pieces
           | [] => [String c EmptyString]
           end
  end.

(** [a, b = l]: [ValueError] unless [l] has exactly two items. *)
Definition unpack2 {A} (l : list A) : result (A * A) :=
  match l with
  | [a; b] => Ok (a, b)
  | _ => Raise ValueError
  end.

Definition status_names : list string :=
  [ "error_geo_get_reg"; "error_geo_get_bit";
    "error_geo_set_reg"; "error_geo_set_bit" ].

(** [_parse]:
<<
    lines = response.split('\n')
    a, b = lines[0].split('=')
    if a not in [...] or b != "0":
        raise Exception("bad response: {}".format(response))
    return lines[1].split('&')[2:]
>> *)
Definition _parse (response : string) : result (list string) :=
  let lines := str_split newline response in
  let! line0 := list_item lines 0 in
  let! ab := unpack2 (str_split "=" line0) in
  let a := fst ab in
  let b := snd ab in
  if negb (existsb (String.eqb a) status_names) || negb (String.eqb b "0")
  then Raise (Exception (String.append "bad response: " response))
  else
    let! line1 := list_item lines 1 in
    Ok (drop 2 (str_split "&" line1)).


(* ===================================================================== *)
(** * Vocabulary of the further properties *)
(* ===================================================================== *)

(** The read request that [get] builds from an entry of [REQUESTS]. *)
Definition read_of (dt : DataTypes) (rq : read_request) : request :=
  mkRequest (Operations.Get dt) (rq_address rq) (rq_length rq) None.

(** The requests of one poll, in the order [get] sends them. *)
Definition poll_requests : list request :=
  flat_map (fun dt => map (read_of dt) (REQUESTS dt)) [Coil; Register].

(** The character occurs in the string. *)
Fixpoint has_char (c : ascii) (s : string) : bool :=
  match s with
  | EmptyString => false
  | String c' s' => Ascii.eqb c' c || has_char c s'
  end.

(** [sep.join(l)]. *)
Fixpoint join (sep : ascii) (l : list string) : string :=
  match l with
  | [] => EmptyString
  | x :: rest =>
      match rest with
      | [] => x
      | _ :: _ => String.append x (String sep (join sep rest))
      end
  end.

(** What may follow the lines that [_parse] reads: nothing, or a line
    break and any text. *)
Definition further_lines (tail : string) : Prop :=
  tail = EmptyString \/ exists text, tail = String newline text.


(** [convert_to_ecoforest_int(parse_ecoforest_float(raw))]. *)
Definition reencode (raw : string) : result string :=
  let! x := parse_ecoforest_float raw in
  convert_to_ecoforest_int x.

Definition reencodes (n : Z) : bool :=
  match reencode (hex4 n) with
  | Ok s => String.eqb s (hex4 n)
  | Raise _ => false
  end.

(** [reencodes] on each of the [2^k] integers from [lo] on. *)
Fixpoint reencodes_block (k : nat) (lo : Z) : bool :=
  match k with
  | O => reencodes lo
  | S k' => reencodes_block k' lo && reencodes_block k' (lo + 2 ^ Z.of_nat k')
  end.

(** The signed reading of an unsigned 16-bit number, with the boundary
    of [parse_ecoforest_int]. *)
Definition signed16 (u : Z) : Z := if u <=? 32768 then u else u - 65536.

(** A device that answers every read with items that are no numbers. *)
Definition garbled_device (w : unit) (data : request) : result (list string) * unit :=
  (Ok (repeat "zz" (Z.to_nat (num data))), w).

(* ===================================================================== *)
(** * The codec round trip *)
(* ===================================================================== *)

Lemma round_trips_block_sound (k : nat) :
  forall lo v, round_trips_block k lo = true ->
    lo <= v < lo + 2 ^ Z.of_nat k -> round_trips v = true.
Proof.
  induction k as [|k IH]; intros lo v Hb Hv.
  - cbn in Hv. cbn in Hb. replace v with lo by lia. exact Hb.
  - cbn [round_trips_block] in Hb. apply andb_prop in Hb as [Hl Hr].
    assert (E : 2 ^ Z.of_nat (S k) = 2 * 2 ^ Z.of_nat k).
    { rewrite Nat2Z.inj_succ, Z.pow_succ_r by lia. reflexivity. }
    assert (0 < 2 ^ Z.of_nat k) by (apply Z.pow_pos_nonneg; lia).
    destruct (Z_lt_dec v (lo + 2 ^ Z.of_nat k)).
    + apply (IH lo); [exact Hl | lia].
    + apply (IH (lo + 2 ^ Z.of_nat k)); [exact Hr | lia].
Qed.

Lemma round_trips_all : round_trips_block 16 (-32767) = true.
Proof. vm_compute. reflexivity. Qed.

Lemma round_trip_sound (v : Z) : round_trips v = true -> round_trip v = Ok v.
Proof.
  unfold round_trips. destruct (round_trip v) as [r|e]; [|discriminate].
  intros H. apply Z.eqb_eq in H. now subst.
Qed.

(** C1 (as amended).  For every integer [v] from -32767 to 32768, encoding
    [v / 10.0] and decoding the result gives [v] back. *)
Theorem round_trip_fixed_point (v : Z) :
  -32767 <= v <= 32768 -> round_trip v = Ok v.
Proof.
  intros Hv. apply round_trip_sound.
  apply (round_trips_block_sound 16 (-32767)); [exact round_trips_all |].
  change (2 ^ Z.of_nat 16) with 65536. lia.
Qed.

Lemma round_trip_fixed_point_witness :
  -32767 <= 32767 <= 32768 /\ round_trip 32767 = Ok 32767.
Proof. split; [lia | apply (round_trip_fixed_point 32767); lia]. Defined.

(** C1, the claim as written fails at its lower bound: -32768 is in the
    claimed range, is encoded as ["8000"], and that decodes to +32768. *)
Lemma round_trip_lower_bound_fails :
  -32768 <= -32768 <= 32767
  /\ (let! x := tenths (-32768) in convert_to_ecoforest_int x) = Ok "8000"
  /\ round_trip (-32768) = Ok 32768
  /\ round_trip (-32768) <> Ok (-32768).
Proof.
  split; [lia |]. split; [vm_compute; reflexivity |].
  assert (E : round_trip (-32768) = Ok 32768) by (vm_compute; reflexivity).
  split; [exact E |]. rewrite E. discriminate.
Qed.

(* ===================================================================== *)
(** * Decoding a register *)
(* ===================================================================== *)

Lemma hex_digit_facts (c : ascii) (d : Z) :
  hex_digit c = Some d ->
  digit_value c = Some d /\ 0 <= d < 16 /\ is_space c = false
  /\ Ascii.eqb c "+" = false /\ Ascii.eqb c "-" = false /\ Ascii.eqb c "_" = false
  /\ Ascii.eqb c "x" = false /\ Ascii.eqb c "X" = false.
Proof.
  destruct c as [[] [] [] [] [] [] [] []]; vm_compute; intros H;
    try discriminate H; injection H as <-; repeat split; discriminate.
Qed.

Lemma int_of_str_hex4 (c3 c2 c1 c0 : ascii) (d3 d2 d1 d0 : Z) :
  hex_digit c3 = Some d3 -> hex_digit c2 = Some d2 ->
  hex_digit c1 = Some d1 -> hex_digit c0 = Some d0 ->
  int_of_str 16 (str4 c3 c2 c1 c0) = Ok (unsigned16 d3 d2 d1 d0).
Proof.
  intros H3 H2 H1 H0.
  apply hex_digit_facts in H3 as (V3 & R3 & S3 & P3 & M3 & U3 & X3 & Y3).
  apply hex_digit_facts in H2 as (V2 & R2 & S2 & P2 & M2 & U2 & X2 & Y2).
  apply hex_digit_facts in H1 as (V1 & R1 & S1 & P1 & M1 & U1 & X1 & Y1).
  apply hex_digit_facts in H0 as (V0 & R0 & S0 & P0 & M0 & U0 & X0 & Y0).
  unfold int_of_str, str4. cbn [lstrip]. rewrite S3.
  cbn [split_sign]. rewrite P3, M3.
  cbn [strip_prefix]. rewrite X2, Y2.
  replace ((16 =? 16) && Ascii.eqb c3 "0" && (false || false)) with false
    by (destruct (Ascii.eqb c3 "0"); reflexivity).
  rewrite U3. cbn [scan_digits]. rewrite U3, V3, U2, V2, U1, V1, U0, V0.
  replace (d3 <? 16) with true by (symmetry; apply Z.ltb_lt; lia).
  replace (d2 <? 16) with true by (symmetry; apply Z.ltb_lt; lia).
  replace (d1 <? 16) with true by (symmetry; apply Z.ltb_lt; lia).
  replace (d0 <? 16) with true by (symmetry; apply Z.ltb_lt; lia).
  cbn. f_equal. unfold unsigned16. lia.
Qed.

Lemma int_truediv_small (n : Z) :
  Z.abs n < 2 ^ 53 -> int_truediv n 10 = Ok (to_float n / 10)%float.
Proof.
  intros Hn. unfold int_truediv.
  assert (F : fits_mantissa n = true) by (apply Z.ltb_lt; exact Hn).
  destruct n as [|p|p].
  - vm_compute. reflexivity.
  - rewrite F. reflexivity.
  - rewrite F. reflexivity.
Qed.

(** C2.  A raw value of four hex digits is read as the unsigned 16-bit
    number [u] they spell; [parse_ecoforest_int] returns [u] when
    [u <= 32768] and [u - 65536] when [u] exceeds 32768, so ["8000"] is
    +32768 and ["ffff"] is -1; [parse_ecoforest_float] is that integer
    divided by 10, so ["ffff"] gives -0.1 and ["0000"] gives 0.0. *)
Theorem parse_ecoforest_int_hex4 (c3 c2 c1 c0 : ascii) (d3 d2 d1 d0 : Z) :
  hex_digit c3 = Some d3 -> hex_digit c2 = Some d2 ->
  hex_digit c1 = Some d1 -> hex_digit c0 = Some d0 ->
  let raw := str4 c3 c2 c1 c0 in
  let u := unsigned16 d3 d2 d1 d0 in
  0 <= u < 65536
  /\ (u <= 32768 -> parse_ecoforest_int raw = Ok u)
  /\ (32768 < u -> parse_ecoforest_int raw = Ok (u - 65536))
  /\ (exists n, parse_ecoforest_int raw = Ok n
                /\ parse_ecoforest_float raw = Ok (to_float n / 10)%float)
  /\ parse_ecoforest_int "8000" = Ok 32768
  /\ parse_ecoforest_int "ffff" = Ok (-1)
  /\ parse_ecoforest_float "ffff" = Ok (-0.1)%float
  /\ parse_ecoforest_float "0000" = Ok 0%float.
Proof.
  intros H3 H2 H1 H0 raw u.
  pose proof (int_of_str_hex4 _ _ _ _ _ _ _ _ H3 H2 H1 H0) as E.
  apply hex_digit_facts in H3 as (_ & R3 & _).
  apply hex_digit_facts in H2 as (_ & R2 & _).
  apply hex_digit_facts in H1 as (_ & R1 & _).
  apply hex_digit_facts in H0 as (_ & R0 & _).
  assert (Hu : 0 <= u < 65536) by (unfold u, unsigned16; lia).
  assert (P : parse_ecoforest_int raw = Ok (if u <=? 32768 then u else u - 65536)).
  { unfold parse_ecoforest_int. fold raw in E. fold u in E. rewrite E. reflexivity. }
  split; [exact Hu |].
  split. { intros Hle. rewrite P. apply Z.leb_le in Hle. rewrite Hle. reflexivity. }
  split. { intros Hgt. rewrite P. apply Z.leb_gt in Hgt. rewrite Hgt. reflexivity. }
  split.
  { exists (if u <=? 32768 then u else u - 65536). split; [exact P |].
    unfold parse_ecoforest_float. rewrite P. cbn [rbind].
    apply int_truediv_small. destruct (u <=? 32768); lia. }
  repeat split; vm_compute; reflexivity.
Qed.

Lemma parse_ecoforest_int_hex4_witness :
  hex_digit "d" = Some 13 /\ hex_digit "8" = Some 8
  /\ hex_digit "f" = Some 15 /\ hex_digit "1" = Some 1
  /\ parse_ecoforest_int "d8f1" = Ok (-9999).
Proof.
  repeat (split; [reflexivity |]).
  exact (proj1 (proj2 (proj2
    (parse_ecoforest_int_hex4 "d" "8" "f" "1" 13 8 15 1 eq_refl eq_refl eq_refl eq_refl)))
    ltac:(unfold unsigned16; lia)).
Defined.


(* ===================================================================== *)
(** * The alarm scan *)
(* ===================================================================== *)

Section AlarmScan.

Variable data : AddressSpace.

(** Coils that read ["0"] are skipped. *)
Lemma alarm_loop_skip (pre rest : list Z) :
  (forall b, In b pre -> coils data !! b = Some "0") ->
  alarm_loop data (pre ++ rest) = alarm_loop data rest.
Proof.
  induction pre as [|b pre IH]; intros Hpre; [reflexivity |].
  cbn [app alarm_loop]. unfold raw_at. cbn [space].
  rewrite (Hpre b (or_introl eq_refl)). cbn.
  apply IH. intros c Hc. apply Hpre. now right.
Qed.

(** The scan stops at the first coil that reads anything else. *)
Lemma alarm_loop_hit (a : Z) (v : string) (rest : list Z) :
  coils data !! a = Some v -> v <> "0" -> alarm_loop data (a :: rest) = Ok a.
Proof.
  intros Ha Hv. cbn [alarm_loop]. unfold raw_at. cbn [space]. rewrite Ha. cbn.
  destruct (String.eqb_spec v "0") as [E|_]; [contradiction | reflexivity].
Qed.

Lemma alarm_loop_quiet (l : list Z) :
  (forall b, In b l -> coils data !! b = Some "0") -> alarm_loop data l = Ok 0.
Proof.
  intros Hl. rewrite <- (app_nil_r l). rewrite alarm_loop_skip by exact Hl.
  reflexivity.
Qed.

(** When every listed coil was read, the scan returns, and what it
    returns is either 0 after a list of ["0"] only, or the first address
    that reads something else. *)
Lemma alarm_loop_total (l : list Z) :
  (forall a, In a l -> is_Some (coils data !! a)) ->
  exists r, alarm_loop data l = Ok r
    /\ ((r = 0 /\ forall a, In a l -> coils data !! a = Some "0")
        \/ (exists (pre post : list Z) (v : string),
               l = (pre ++ r :: post)%list
               /\ (forall b, In b pre -> coils data !! b = Some "0")
               /\ coils data !! r = Some v /\ v <> "0")).
Proof.
  induction l as [|a l IH]; intros Hl.
  - exists 0. split; [reflexivity |]. left. split; [reflexivity |]. intros a [].
  - destruct (Hl a (or_introl eq_refl)) as [v Hv].
    destruct (String.eqb_spec v "0") as [E|N].
    + subst v. destruct IH as (r & Hr & Hcase).
      { intros b Hb. apply Hl. now right. }
      exists r. split.
      { rewrite <- Hr. apply (alarm_loop_skip [a] l).
        intros b [<- | []]. exact Hv. }
      destruct Hcase as [[-> Hq] | (pre & post & w & -> & Hpre & Hw & Hne)].
      * left. split; [reflexivity |]. intros b [<- | Hb]; [exact Hv | now apply Hq].
      * right. exists (a :: pre), post, w. split; [reflexivity |].
        split; [| now split]. intros b [<- | Hb]; [exact Hv | now apply Hpre].
    + exists a. split; [exact (alarm_loop_hit a v l Hv N) |].
      right. exists [], l, v. split; [reflexivity |].
      split; [intros b [] | now split].
Qed.

End AlarmScan.

(** C4.  On a coil space that holds every address of the alarm table,
    [get_alarm] returns the earliest address, in the order of the table,
    whose raw string is not ["0"] (whatever else it is), and 0 when every
    table address reads ["0"]; with 3 and 18 both ["1"] and the other
    table addresses ["0"] it returns 3. *)
Theorem get_alarm_first_active (data : AddressSpace) :
  (forall a, In a alarm_registers -> is_Some (coils data !! a)) ->
  (exists r, get_alarm data = Ok r
     /\ ((r = 0 /\ forall a, In a alarm_registers -> coils data !! a = Some "0")
         \/ (exists (pre post : list Z) (v : string),
                alarm_registers = (pre ++ r :: post)%list
                /\ (forall b, In b pre -> coils data !! b = Some "0")
                /\ coils data !! r = Some v /\ v <> "0")))
  /\ (forall (pre : list Z) (a : Z) (post : list Z) (v : string),
      alarm_registers = (pre ++ a :: post)%list ->
      (forall b, In b pre -> coils data !! b = Some "0") ->
      coils data !! a = Some v -> v <> "0" ->
      get_alarm data = Ok a)
  /\ ((forall a, In a alarm_registers -> coils data !! a = Some "0") ->
      get_alarm data = Ok 0)
  /\ (coils data !! 3 = Some "1" -> coils data !! 18 = Some "1" ->
      (forall a, In a alarm_registers -> a <> 3 -> a <> 18 ->
                 coils data !! a = Some "0") ->
      get_alarm data = Ok 3 /\ get_alarm data <> Ok 18).
Proof.
  intros Hread. split; [exact (alarm_loop_total data alarm_registers Hread) |].
  split; [| split].
  - intros pre a post v Hsplit Hpre Ha Hv. unfold get_alarm. rewrite Hsplit.
    rewrite alarm_loop_skip by exact Hpre. exact (alarm_loop_hit data a v post Ha Hv).
  - intros Hall. unfold get_alarm. apply alarm_loop_quiet. exact Hall.
  - intros H3 H18 Hrest.
    assert (E : get_alarm data = Ok 3).
    { unfold get_alarm. change alarm_registers with ([1; 2] ++ 3 :: skipn 3 alarm_registers)%list.
      rewrite alarm_loop_skip.
      - apply (alarm_loop_hit data 3 "1"); [exact H3 | discriminate].
      - intros b Hb. apply Hrest.
        + unfold alarm_registers. cbn in Hb |- *. tauto.
        + cbn in Hb. lia.
        + cbn in Hb. lia. }
    split; [exact E |]. rewrite E. discriminate.
Qed.

Lemma get_alarm_first_active_witness :
  (forall a, In a alarm_registers -> is_Some (coils (coils_with [3; 18]) !! a))
  /\ get_alarm (coils_with [3; 18]) = Ok 3.
Proof.
  assert (H : forall a, In a alarm_registers ->
                        is_Some (coils (coils_with [3; 18]) !! a)).
  { intros a Ha. unfold alarm_registers in Ha. cbn in Ha.
    repeat (destruct Ha as [<- | Ha]; [vm_compute; eexists; reflexivity |]).
    destruct Ha. }
  split; [exact H |].
  refine (proj1 (proj2 (get_alarm_first_active (coils_with [3; 18]) H))
    [1; 2] 3 (skipn 3 alarm_registers) "1" eq_refl _ _ _).
  - intros b [<- | [<- | []]]; vm_compute; reflexivity.
  - vm_compute; reflexivity.
  - discriminate.
Defined.

(* ===================================================================== *)
(** * The read plan covers the mapping *)
(* ===================================================================== *)

Lemma in_range (a n x : Z) : In x (range a n) <-> a <= x < a + n.
Proof.
  unfold range. rewrite in_map_iff. split.
  - intros (k & <- & Hk). apply in_seq in Hk. lia.
  - intros Hx. exists (Z.to_nat (x - a)). split; [lia |]. apply in_seq. lia.
Qed.

Lemma load_loop_keeps (response : list string) (addresses : list Z) :
  forall index acc m,
    load_loop response addresses index acc = Ok m ->
    forall x, In x addresses \/ is_Some (acc !! x) -> is_Some (m !! x).
Proof.
  induction addresses as [|i rest IH]; intros index acc m Hm x Hx.
  - cbn in Hm. injection Hm as <-. destruct Hx as [[] | Hx]. exact Hx.
  - cbn [load_loop] in Hm.
    destruct (response !! index) as [raw|]; [cbn in Hm | discriminate Hm].
    apply (IH _ _ _ Hm). destruct Hx as [[<- | Hx] | Hx].
    + right. rewrite lookup_insert_eq. eauto.
    + now left.
    + right. destruct (decide (i = x)) as [<- | Hne].
      * rewrite lookup_insert_eq. eauto.
      * rewrite lookup_insert_ne by exact Hne. exact Hx.
Qed.

Lemma space_update_keeps (st : AddressSpace) (dt dt' : DataTypes)
    (d : gmap Z string) (x : Z) :
  is_Some (space st dt' !! x) \/ (dt' = dt /\ is_Some (d !! x)) ->
  is_Some (space (space_update st dt d) dt' !! x).
Proof.
  intros H. destruct dt, dt'; cbn [space_update space coils registers] in *;
    rewrite ?lookup_union_is_Some; destruct H as [H | [E H]];
    try discriminate E; tauto.
Qed.

Section Poll.

Context {W : Type}.
Variable _request : W -> request -> result (list string) * W.

Lemma _load_data_reads (address length op_type : Z) (s s' : session)
    (d : gmap Z string) :
  _load_data _request address length op_type s = (Ok d, s') ->
  forall x, address <= x < address + length -> is_Some (d !! x).
Proof.
  unfold _load_data, bind, send, lift. intros H x Hx.
  destruct (_request (world s) _) as [[response | e] w]; [| discriminate H].
  injection H as H _. apply (load_loop_keeps _ _ _ _ _ H). left.
  apply in_range. exact Hx.
Qed.

Lemma load_requests_reads (dt : DataTypes) (requests : list read_request) :
  forall st s st' s',
    load_requests _request dt requests st s = (Ok st', s') ->
    forall dt' x,
      is_Some (space st dt' !! x)
      \/ (dt' = dt /\ existsb (in_request x) requests = true) ->
      is_Some (space st' dt' !! x).
Proof.
  induction requests as [|rq rest IH]; intros st s st' s' H dt' x Hx.
  - cbn in H. injection H as <- _. destruct Hx as [Hx | [_ Hx]];
      [exact Hx | discriminate Hx].
  - cbn [load_requests] in H. unfold bind at 1 in H.
    destruct (_load_data _ _ _ _ s) as [[d | e] s1] eqn:Hd; [| discriminate H].
    apply (IH _ _ _ _ H). destruct Hx as [Hx | [-> Hx]].
    + left. apply space_update_keeps. now left.
    + cbn [existsb] in Hx. apply orb_prop in Hx as [Hx | Hx].
      * left. apply space_update_keeps. right. split; [reflexivity |].
        apply (_load_data_reads _ _ _ _ _ _ Hd).
        unfold in_request in Hx. lia.
      * right. now split.
Qed.

Lemma poll_reads (s s' : session) (state : AddressSpace) :
  poll _request s = (Ok state, s') ->
  forall dt x, covered dt x = true -> is_Some (space state dt !! x).
Proof.
  unfold poll. cbn [load_types]. unfold bind at 1. intros H dt x Hx.
  destruct (load_requests _ Coil _ _ s) as [[st1 | e] s1] eqn:H1; [| discriminate H].
  unfold bind at 1 in H.
  destruct (load_requests _ Register _ _ s1) as [[st2 | e] s2] eqn:H2;
    [| discriminate H].
  cbn in H. injection H as <- _.
  apply (load_requests_reads _ _ _ _ _ _ H2).
  destruct dt.
  - right. split; [reflexivity | exact Hx].
  - left. apply (load_requests_reads _ _ _ _ _ _ H1). right.
    split; [reflexivity | exact Hx].
Qed.

End Poll.

Lemma covered_coil (a : Z) :
  covered Coil a = true <-> 1 <= a <= 41 \/ a = 83 \/ 212 <= a <= 226.
Proof.
  unfold covered, in_request. cbn.
  rewrite !orb_true_iff, !andb_true_iff, !Z.leb_le, !Z.ltb_lt. split; lia.
Qed.

Lemma covered_register (a : Z) :
  covered Register a = true <-> 11 <= a <= 41 \/ 5323 <= a <= 5328.
Proof.
  unfold covered, in_request. cbn. unfold MODEL_ADDRESS, MODEL_LENGTH.
  rewrite !orb_true_iff, !andb_true_iff, !Z.leb_le, !Z.ltb_lt. split; lia.
Qed.

(** C9.  Every address of the mapping lies in one of the curated read
    ranges of its data type (coils 1-41, 83, 212-226; registers 11-41 and
    the six model registers from 5323), and so does every address of the
    alarm table in the coil ranges; hence a poll that succeeds has read
    every covered address, and with them every mapped one. *)
Theorem mapping_within_requests :
  map (fun rq => (rq_address rq, rq_length rq)) (REQUESTS Coil)
    = [(1, 41); (83, 1); (212, 15)]
  /\ map (fun rq => (rq_address rq, rq_length rq)) (REQUESTS Register)
    = [(11, 31); (5323, 6)]
  /\ (forall a, covered Coil a = true <-> 1 <= a <= 41 \/ a = 83 \/ 212 <= a <= 226)
  /\ (forall a, covered Register a = true <-> 11 <= a <= 41 \/ 5323 <= a <= 5328)
  /\ (forall name d a, In (name, d) MAPPING -> address d = Some a ->
                       covered (data_type d) a = true)
  /\ (forall a, In a alarm_registers -> covered Coil a = true)
  /\ (forall a, In a (range MODEL_ADDRESS MODEL_LENGTH) -> covered Register a = true)
  /\ (forall (W : Type) (_request : W -> request -> result (list string) * W)
             (s s' : session) (state : AddressSpace),
        poll _request s = (Ok state, s') ->
        (forall name d a, In (name, d) MAPPING -> address d = Some a ->
                          is_Some (space state (data_type d) !! a))
        /\ (forall a, In a alarm_registers -> is_Some (coils state !! a))
        /\ (forall a, In a (range MODEL_ADDRESS MODEL_LENGTH) ->
                      is_Some (registers state !! a))).
Proof.
  assert (HM : forall name d a, In (name, d) MAPPING -> address d = Some a ->
                                covered (data_type d) a = true).
  { intros name d a Hin Ha. unfold MAPPING in Hin. cbn in Hin.
    repeat (destruct Hin as [Hin | Hin];
            [injection Hin as <- <-; cbn in Ha; try discriminate Ha;
             injection Ha as <-; reflexivity |]).
    destruct Hin. }
  assert (HA : forall a, In a alarm_registers -> covered Coil a = true).
  { intros a Ha. apply covered_coil. unfold alarm_registers in Ha. cbn in Ha. lia. }
  assert (HR : forall a, In a (range MODEL_ADDRESS MODEL_LENGTH) ->
                         covered Register a = true).
  { intros a Ha. apply covered_register. apply in_range in Ha.
    unfold MODEL_ADDRESS, MODEL_LENGTH in Ha. lia. }
  split; [reflexivity |]. split; [reflexivity |].
  split; [exact covered_coil |]. split; [exact covered_register |].
  split; [exact HM |]. split; [exact HA |]. split; [exact HR |].
  intros W _request s s' state Hpoll.
  pose proof (poll_reads _request s s' state Hpoll) as Hread.
  split; [| split].
  - intros name d a Hin Ha. apply Hread. exact (HM name d a Hin Ha).
  - intros a Ha. apply (Hread Coil). exact (HA a Ha).
  - intros a Ha. apply (Hread Register). exact (HR a Ha).
Qed.

Lemma mapping_within_requests_witness :
  exists state s',
    poll zero_device fresh = (Ok state, s')
    /\ is_Some (registers state !! 40) /\ is_Some (coils state !! 226).
Proof.
  destruct (poll zero_device fresh) as [[state | e] s'] eqn:H.
  - exists state, s'. split; [reflexivity |].
    destruct (proj2 (proj2 (proj2 (proj2 (proj2 (proj2 (proj2
      mapping_within_requests)))))) unit zero_device fresh s' state H)
      as (HM & HA & _).
    split.
    + exact (HM "number_dhw_setpoint" (number_field 40 0 65) 40
               ltac:(cbn; tauto) eq_refl).
    + apply HA. unfold alarm_registers. cbn. tauto.
  - exfalso. vm_compute in H. discriminate H.
Defined.

(* ===================================================================== *)
(** * The model name *)
(* ===================================================================== *)

Lemma append_cons (c : ascii) (s t : string) :
  String.append (String c s) t = String c (String.append s t).
Proof. reflexivity. Qed.

Lemma append_nil_r (s : string) : String.append s EmptyString = s.
Proof.
  induction s as [|c s IH]; [reflexivity |]. rewrite append_cons, IH. reflexivity.
Qed.

Lemma append_assoc (s t u : string) :
  String.append (String.append s t) u = String.append s (String.append t u).
Proof.
  induction s as [|c s IH]; [reflexivity |]. rewrite !append_cons, IH. reflexivity.
Qed.

(** Subscription of the alphabet: inside [-37, 36] it yields the symbol
    of the wrapped index, outside it raises. *)
Lemma list_item_model_dictionary (i : Z) :
  list_item model_dictionary i
  = if in_alphabet i then Ok (symbol (wrapped i)) else Raise IndexError.
Proof.
  unfold in_alphabet.
  destruct (Z.leb_spec (-37) i) as [Hlo | Hlo];
    [destruct (Z.leb_spec i 36) as [Hhi | Hhi] |]; cbn [andb].
  - assert (Hn : exists n : nat, (n < 74)%nat /\ i = Z.of_nat n - 37).
    { exists (Z.to_nat (i + 37)). lia. }
    destruct Hn as (n & Hn & ->). clear Hlo Hhi.
    do 74 (destruct n as [|n]; [vm_compute; reflexivity |]). lia.
  - unfold list_item. change (Z.of_nat (List.length model_dictionary)) with 37.
    destruct (Z.leb_spec 0 i); [| lia]. destruct (Z.ltb_spec i 37); [lia |].
    cbn [andb]. destruct (Z.ltb_spec i 0); [lia |].
    rewrite andb_false_r. reflexivity.
  - unfold list_item. change (Z.of_nat (List.length model_dictionary)) with 37.
    destruct (Z.leb_spec 0 i); [lia |]. cbn [andb].
    destruct (Z.leb_spec (- (37)) i); [lia |]. reflexivity.
Qed.

Lemma model_loop_spec (data : AddressSpace) (addresses : list Z) (indices : list Z) :
  Forall2 (fun a i => exists raw, registers data !! a = Some raw
                                  /\ parse_ecoforest_int raw = Ok i)
          addresses indices ->
  forall acc,
    model_loop data addresses acc
    = if forallb in_alphabet indices
      then Ok (String.append acc
                 (concat_symbols (map (fun i => symbol (wrapped i)) indices)))
      else Raise IndexError.
Proof.
  induction 1 as [|a i addresses indices (raw & Hraw & Hi) _ IH]; intros acc.
  - cbn. rewrite append_nil_r. reflexivity.
  - cbn [model_loop forallb map concat_symbols fold_right].
    unfold raw_at. cbn [space]. rewrite Hraw. cbn [of_option rbind].
    rewrite Hi. cbn [rbind]. rewrite list_item_model_dictionary.
    destruct (in_alphabet i); cbn [rbind andb]; [| reflexivity].
    rewrite IH. destruct (forallb in_alphabet indices); [| reflexivity].
    f_equal. unfold concat_symbols. rewrite append_assoc. reflexivity.
Qed.

(** The loop reads nothing but the registers it is given. *)
Lemma model_loop_ext (d1 d2 : AddressSpace) (addresses : list Z) :
  (forall a, In a addresses -> registers d1 !! a = registers d2 !! a) ->
  forall acc, model_loop d1 addresses acc = model_loop d2 addresses acc.
Proof.
  induction addresses as [|a rest IH]; intros Hagree acc; [reflexivity |].
  cbn [model_loop]. unfold raw_at. cbn [space].
  rewrite (Hagree a (or_introl eq_refl)).
  destruct (registers d2 !! a) as [raw|]; [cbn [of_option rbind] | reflexivity].
  destruct (parse_ecoforest_int raw) as [i|e]; [cbn [rbind] | reflexivity].
  destruct (list_item model_dictionary i) as [s|e]; [cbn [rbind] | reflexivity].
  apply IH. intros b Hb. apply Hagree. now right.
Qed.

Lemma forallb_in_alphabet (indices : list Z) :
  forallb in_alphabet indices = true <-> Forall (fun i => -37 <= i <= 36) indices.
Proof.
  rewrite forallb_forall, List.Forall_forall. unfold in_alphabet.
  split; intros H i Hi; specialize (H i Hi).
  - apply andb_prop in H as [H1 H2]. apply Z.leb_le in H1, H2. lia.
  - apply andb_true_intro. split; apply Z.leb_le; lia.
Qed.

Lemma wrapped_nonneg (indices : list Z) :
  Forall (fun i => 0 <= i <= 36) indices ->
  map (fun i => symbol (wrapped i)) indices = map symbol indices.
Proof.
  induction 1 as [|i l Hi _ IH]; [reflexivity |]. cbn [map]. rewrite IH.
  unfold wrapped. destruct (Z.ltb_spec i 0); [lia | reflexivity].
Qed.

(** C5 (as amended).  [parse_model_name] reads the six registers from
    5323 on and nothing else, maps each decoded index through the
    37-symbol alphabet (0 the placeholder ["--"], 1-10 the digits, 11-36
    the uppercase letters) and concatenates the symbols in address order;
    the placeholder has two characters, so an all-zero block decodes to
    twelve dashes. *)
Theorem parse_model_name_alphabet (data : AddressSpace) (indices : list Z) :
  model_block data indices ->
  Forall (fun i => 0 <= i <= 36) indices ->
  range MODEL_ADDRESS MODEL_LENGTH = [5323; 5324; 5325; 5326; 5327; 5328]
  /\ List.length model_dictionary = 37%nat
  /\ (forall i, 0 <= i <= 36 -> model_dictionary !! Z.to_nat i = Some (symbol i))
  /\ parse_model_name data = Ok (concat_symbols (map symbol indices))
  /\ (forall data',
        (forall a, In a (range MODEL_ADDRESS MODEL_LENGTH) ->
                   registers data' !! a = registers data !! a) ->
        parse_model_name data' = parse_model_name data)
  /\ (indices = [0; 0; 0; 0; 0; 0] -> parse_model_name data = Ok "------------")
  /\ (indices = [0; 10; 20; 30; 1; 2] -> parse_model_name data = Ok "--9JT01").
Proof.
  intros Hblock Hrange.
  assert (E : parse_model_name data = Ok (concat_symbols (map symbol indices))).
  { unfold parse_model_name. rewrite (model_loop_spec data _ indices Hblock).
    replace (forallb in_alphabet indices) with true.
    - rewrite (wrapped_nonneg indices Hrange). reflexivity.
    - symmetry. apply forallb_in_alphabet.
      eapply List.Forall_impl; [| exact Hrange]. cbn. intros; lia. }
  split; [reflexivity |]. split; [reflexivity |]. split.
  { intros i Hi.
    assert (Hn : exists n : nat, (n < 37)%nat /\ i = Z.of_nat n).
    { exists (Z.to_nat i). lia. }
    destruct Hn as (n & Hn & ->).
    do 37 (destruct n as [|n]; [vm_compute; reflexivity |]). lia. }
  split; [exact E |]. split.
  { intros data' Hagree. unfold parse_model_name. now apply model_loop_ext. }
  split; intros ->; rewrite E; reflexivity.
Qed.

Lemma parse_model_name_alphabet_witness :
  model_block (with_model ["0000"; "000a"; "0014"; "001e"; "0001"; "0002"])
              [0; 10; 20; 30; 1; 2]
  /\ parse_model_name (with_model ["0000"; "000a"; "0014"; "001e"; "0001"; "0002"])
     = Ok "--9JT01".
Proof.
  assert (B : model_block (with_model ["0000"; "000a"; "0014"; "001e"; "0001"; "0002"])
                          [0; 10; 20; 30; 1; 2]).
  { unfold model_block.
    repeat (constructor;
      [eexists; split; [vm_compute; reflexivity | vm_compute; reflexivity] |]).
    constructor. }
  split; [exact B |].
  refine (proj2 (proj2 (proj2 (proj2 (proj2 (proj2
    (parse_model_name_alphabet _ _ B _)))))) eq_refl).
  repeat (constructor; [lia |]). constructor.
Defined.

(** C5, the claim as written fails on its example: the all-zero block
    decodes to six placeholders of two characters each, twelve dashes,
    and not to the six-character string. *)
Lemma zero_block_is_twelve_dashes :
  model_block (with_model (repeat "0000" 6)) [0; 0; 0; 0; 0; 0]
  /\ parse_model_name (with_model (repeat "0000" 6)) = Ok "------------"
  /\ String.length "------------" = 12%nat
  /\ parse_model_name (with_model (repeat "0000" 6)) <> Ok "------".
Proof.
  split.
  { unfold model_block.
    repeat (constructor;
      [eexists; split; [vm_compute; reflexivity | vm_compute; reflexivity] |]).
    constructor. }
  assert (E : parse_model_name (with_model (repeat "0000" 6)) = Ok "------------")
    by (vm_compute; reflexivity).
  split; [exact E |]. split; [reflexivity |]. rewrite E. discriminate.
Qed.

(** C8 (as amended).  With the six model registers read and decoded,
    [parse_model_name] raises [IndexError] exactly when some index lies
    outside [-37, 36]; it returns a string when all lie inside, an index
    from -37 to -1 selecting the symbol 37 places further, and so it
    returns one whenever all indices lie in [0, 36]. *)
Theorem parse_model_name_index_fault (data : AddressSpace) (indices : list Z) :
  model_block data indices ->
  (Forall (fun i => -37 <= i <= 36) indices ->
     parse_model_name data
     = Ok (concat_symbols (map (fun i => symbol (wrapped i)) indices)))
  /\ (Exists (fun i => i < -37 \/ 36 < i) indices ->
     parse_model_name data = Raise IndexError)
  /\ (Forall (fun i => 0 <= i <= 36) indices ->
     exists s, parse_model_name data = Ok s).
Proof.
  intros Hblock. unfold parse_model_name.
  rewrite (model_loop_spec data _ indices Hblock). split; [| split].
  - intros Hin. apply forallb_in_alphabet in Hin. rewrite Hin. reflexivity.
  - intros Hout. destruct (forallb in_alphabet indices) eqn:Hall; [| reflexivity].
    apply forallb_in_alphabet in Hall. rewrite List.Forall_forall in Hall.
    apply List.Exists_exists in Hout as (i & Hi & Hbad).
    specialize (Hall i Hi). lia.
  - intros Hin. replace (forallb in_alphabet indices) with true; [eauto |].
    symmetry. apply forallb_in_alphabet.
    eapply List.Forall_impl; [| exact Hin]. cbn. intros; lia.
Qed.

Lemma parse_model_name_index_fault_witness :
  model_block (with_model (repeat "0025" 6)) (repeat 37 6)
  /\ parse_model_name (with_model (repeat "0025" 6)) = Raise IndexError.
Proof.
  assert (B : model_block (with_model (repeat "0025" 6)) (repeat 37 6)).
  { unfold model_block.
    repeat (constructor;
      [eexists; split; [vm_compute; reflexivity | vm_compute; reflexivity] |]).
    constructor. }
  split; [exact B |].
  apply (proj1 (proj2 (parse_model_name_index_fault _ _ B))).
  constructor. lia.
Defined.

(** C8, the claim as written fails below zero: registers that read
    ["ffff"] decode to the index -1, which is outside [0, 36], and the
    subscription counts from the end instead of raising. *)
Lemma negative_index_is_no_fault :
  model_block (with_model (repeat "ffff" 6)) (repeat (-1) 6)
  /\ ~ (0 <= -1 <= 36)
  /\ parse_model_name (with_model (repeat "ffff" 6)) = Ok "ZZZZZZ".
Proof.
  split.
  { unfold model_block.
    repeat (constructor;
      [eexists; split; [vm_compute; reflexivity | vm_compute; reflexivity] |]).
    constructor. }
  split; [lia | vm_compute; reflexivity].
Qed.

(* ===================================================================== *)
(** * The write operations *)
(* ===================================================================== *)

Lemma mapping_has_keys (name : string) :
  mapping_has name = true <-> In name (map fst MAPPING).
Proof.
  unfold mapping_has, MAPPING. cbn [map fst assoc In].
  repeat match goal with
         | |- context [String.eqb ?k name] =>
             destruct (String.eqb_spec k name) as [<- | ?]
         end; split; intros H; try reflexivity; try discriminate H; intuition congruence.
Qed.

Section Writes.

Context {W : Type}.
Variable _request : W -> request -> result (list string) * W.

Lemma turn_switch_unknown (name : string) (on : option bool) (s : session) :
  mapping_has name = false ->
  turn_switch _request name on s = (Raise (Exception "unknown switch"), s).
Proof. intros H. unfold turn_switch. rewrite H. reflexivity. Qed.

Lemma set_numeric_value_unknown (name : string) (value : float) (s : session) :
  mapping_has name = false ->
  set_numeric_value _request name value s
  = (Raise (Exception "unknown register"), s).
Proof. intros H. unfold set_numeric_value. rewrite H. reflexivity. Qed.

Lemma turn_switch_alarm (on : option bool) (s : session) :
  turn_switch _request "alarm" on s = (Raise KeyError, s).
Proof. reflexivity. Qed.

Lemma set_numeric_value_alarm (value : float) (s : session) :
  set_numeric_value _request "alarm" value s
  = match convert_to_ecoforest_int value with
    | Ok _ => (Raise KeyError, s)
    | Raise e => (Raise e, s)
    end.
Proof.
  unfold set_numeric_value. change (mapping_has "alarm") with true.
  cbn [negb]. unfold bind, lift.
  destruct (convert_to_ecoforest_int value) as [raw | e]; reflexivity.
Qed.

End Writes.

Lemma convert_raises (value : float) (e : exn) :
  convert_to_ecoforest_int value = Raise e -> e = ValueError \/ e = OverflowError.
Proof.
  unfold convert_to_ecoforest_int, int_of_float.
  destruct (Prim2SF (value * 10)); cbn [rbind]; intros H;
    try discriminate H; injection H as <-; tauto.
Qed.

(** C3 (as amended).  A name that is no key of [MAPPING] makes
    [turn_switch] and [set_numeric_value] raise their unknown-name
    exception at once: the session is unchanged, so no request was sent. *)
Theorem unknown_name_is_rejected
    (W : Type) (_request : W -> request -> result (list string) * W)
    (name : string) (s : session) :
  ~ In name (map fst MAPPING) ->
  (forall on, turn_switch _request name on s
              = (Raise (Exception "unknown switch"), s))
  /\ (forall value, set_numeric_value _request name value s
                    = (Raise (Exception "unknown register"), s)).
Proof.
  intros Hname.
  assert (H : mapping_has name = false).
  { destruct (mapping_has name) eqn:E; [| reflexivity].
    apply mapping_has_keys in E. contradiction. }
  split; intros; [now apply turn_switch_unknown | now apply set_numeric_value_unknown].
Qed.

Lemma unknown_name_is_rejected_witness :
  ~ In "not_a_real_field" (map fst MAPPING)
  /\ turn_switch zero_device "not_a_real_field" (Some true) fresh
     = (Raise (Exception "unknown switch"), fresh).
Proof.
  assert (H : ~ In "not_a_real_field" (map fst MAPPING)).
  { cbn. intros H. repeat (destruct H as [H | H]; [discriminate H |]). exact H. }
  split; [exact H |].
  exact (proj1 (unknown_name_is_rejected unit zero_device "not_a_real_field" fresh H)
               (Some true)).
Defined.

(** C3, the claim as written fails for a name of the table that is of
    the other kind: ["t_dhw"] is a register field, yet [turn_switch]
    passes the check and sends a coil write to address 11; ["switch_dhw"]
    is a coil field, yet [set_numeric_value] sends a register write to
    address 213. *)
Lemma mapped_name_of_other_kind_is_written :
  is_coil_field "t_dhw" = false
  /\ turn_switch dead_device "t_dhw" (Some true) fresh
     = (Raise (Exception "connection failed"),
        mkSession tt [mkRequest OP_TYPE_SET_SWITCH 11 1 (Some (PInt 1, PInt 1))])
  /\ is_register_field "switch_dhw" = false
  /\ set_numeric_value dead_device "switch_dhw" 21.5%float fresh
     = (Raise (Exception "connection failed"),
        mkSession tt [mkRequest OP_TYPE_SET_REGISTER 213 1
                        (Some (PStr "00d7", PStr "00d7"))]).
Proof. repeat split; vm_compute; reflexivity. Qed.

(** C10 (as amended).  ["alarm"] is a key of [MAPPING] whose definition
    has no ["address"]: [turn_switch] and [set_numeric_value] pass the
    unknown-name check and send nothing.  [turn_switch] raises [KeyError]
    when it fetches the address.  [set_numeric_value] encodes the value
    first: when the value encodes it raises [KeyError] at the address,
    and when it does not (a NaN, an infinity) it raises the exception of
    the encoder, [ValueError] or [OverflowError]; it never raises the
    unknown-name exception. *)
Theorem alarm_write_raises_key_error
    (W : Type) (_request : W -> request -> result (list string) * W)
    (s : session) :
  In "alarm" (map fst MAPPING)
  /\ (exists d, assoc "alarm" MAPPING = Some d
                /\ address d = None /\ type_ d = "custom")
  /\ (forall on, turn_switch _request "alarm" on s = (Raise KeyError, s))
  /\ (forall value raw,
        convert_to_ecoforest_int value = Ok raw ->
        set_numeric_value _request "alarm" value s = (Raise KeyError, s))
  /\ (forall value, exists e,
        set_numeric_value _request "alarm" value s = (Raise e, s)
        /\ e <> Exception "unknown register")
  /\ (forall value e,
        convert_to_ecoforest_int value = Raise e ->
        set_numeric_value _request "alarm" value s = (Raise e, s)
        /\ (e = ValueError \/ e = OverflowError)).
Proof.
  split; [cbn; tauto |].
  split; [eexists; split; [reflexivity | split; reflexivity] |].
  split; [intros on; apply turn_switch_alarm |].
  split; [| split].
  - intros value raw Hraw. rewrite set_numeric_value_alarm, Hraw. reflexivity.
  - intros value. rewrite set_numeric_value_alarm.
    destruct (convert_to_ecoforest_int value) as [raw | e] eqn:E.
    + exists KeyError. split; [reflexivity | discriminate].
    + exists e. split; [reflexivity |].
      destruct (convert_raises value e E) as [-> | ->]; discriminate.
  - intros value e He. split; [| exact (convert_raises value e He)].
    rewrite set_numeric_value_alarm, He. reflexivity.
Qed.

Lemma alarm_write_raises_key_error_witness :
  convert_to_ecoforest_int 21.5%float = Ok "00d7"
  /\ set_numeric_value zero_device "alarm" 21.5%float fresh = (Raise KeyError, fresh).
Proof.
  assert (H : convert_to_ecoforest_int 21.5%float = Ok "00d7")
    by (vm_compute; reflexivity).
  split; [exact H |].
  exact (proj1 (proj2 (proj2 (proj2
    (alarm_write_raises_key_error unit zero_device fresh)))) 21.5%float "00d7" H).
Defined.

(** C10, the claim as written fails for [set_numeric_value] on a value
    that does not encode: the value is encoded before the address is
    fetched, so a NaN raises [ValueError] and an infinity [OverflowError],
    and the lookup that would raise [KeyError] is never reached. *)
Lemma alarm_write_of_nan_is_no_key_error :
  mapping_has "alarm" = true
  /\ set_numeric_value zero_device "alarm" nan fresh = (Raise ValueError, fresh)
  /\ set_numeric_value zero_device "alarm" infinity fresh
     = (Raise OverflowError, fresh)
  /\ set_numeric_value zero_device "alarm" nan fresh <> (Raise KeyError, fresh).
Proof.
  split; [reflexivity |].
  assert (E : set_numeric_value zero_device "alarm" nan fresh
              = (Raise ValueError, fresh)) by (vm_compute; reflexivity).
  split; [exact E |]. split; [vm_compute; reflexivity |].
  rewrite E. discriminate.
Qed.

(* ===================================================================== *)
(** * The snapshot build *)
(* ===================================================================== *)

Section Snapshot.

Variable state : AddressSpace.

(** The first loop stores under the names of its table only. *)
Lemma decode_loop_other (table : list (string * definition)) (name : string) :
  ~ In name (map fst table) ->
  forall acc m, decode_loop state table acc = Ok m -> m !! name = acc !! name.
Proof.
  induction table as [|[k d] rest IH]; intros Hname acc m Hm.
  - cbn in Hm. injection Hm as <-. reflexivity.
  - cbn [decode_loop] in Hm. cbn [map fst In] in Hname.
    destruct (decode_field state d) as [[v|]|e]; cbn [rbind] in Hm;
      [| | discriminate Hm].
    + rewrite (IH ltac:(tauto) _ _ Hm). apply lookup_insert_ne. tauto.
    + exact (IH ltac:(tauto) _ _ Hm).
Qed.

(** A field of wire type ["float"] is stored as the float its raw value
    decodes to. *)
Lemma decode_loop_float (table : list (string * definition)) :
  List.NoDup (map fst table) ->
  forall acc m name d,
    decode_loop state table acc = Ok m ->
    In (name, d) table -> type_ d = "float" ->
    exists a raw x,
      address d = Some a
      /\ space state (data_type d) !! a = Some raw
      /\ parse_ecoforest_float raw = Ok x
      /\ m !! name = Some (VFloat x).
Proof.
  induction table as [|[k d0] rest IH]; intros Hnd acc m name d Hm Hin Hty;
    [destruct Hin |].
  cbn [map fst] in Hnd. apply List.NoDup_cons_iff in Hnd as [Hk Hnd].
  cbn [decode_loop] in Hm. destruct Hin as [Heq | Hin].
  - injection Heq as -> ->. unfold decode_field in Hm. rewrite Hty in Hm.
    cbn [String.eqb Ascii.eqb Bool.eqb] in Hm. unfold item, raw_at in Hm.
    destruct (address d) as [a|] eqn:Ha;
      [cbn [of_option rbind] in Hm | discriminate Hm].
    destruct (space state (data_type d) !! a) as [raw|] eqn:Hraw;
      [cbn [of_option rbind] in Hm | discriminate Hm].
    destruct (parse_ecoforest_float raw) as [x|e] eqn:Hx;
      [cbn [rbind] in Hm | discriminate Hm].
    exists a, raw, x. split; [reflexivity |]. split; [exact Hraw |].
    split; [exact Hx |].
    rewrite (decode_loop_other rest name Hk _ _ Hm). apply lookup_insert_eq.
  - destruct (decode_field state d0) as [[v|]|e]; cbn [rbind] in Hm;
      [| | discriminate Hm]; exact (IH Hnd _ _ name d Hm Hin Hty).
Qed.

(** The second loop, too, stores under the names of its table only. *)
Lemma derive_loop_other (table : list (string * definition)) (name : string) :
  ~ In name (map fst table) ->
  forall info m, derive_loop state table info = Ok m -> m !! name = info !! name.
Proof.
  induction table as [|[k d] rest IH]; intros Hname info m Hm.
  - cbn in Hm. injection Hm as <-. reflexivity.
  - cbn [derive_loop] in Hm. cbn [map fst In] in Hname.
    assert (Hk : k <> name) by tauto.
    destruct (String.eqb (entity_type d) "temperature").
    + destruct (info !! k) as [v|]; [cbn [of_option rbind] in Hm | discriminate Hm].
      destruct (negb (String.eqb (type_ d) "custom")).
      * rewrite (IH ltac:(tauto) _ _ Hm).
        destruct (value_eq_float v SENTINEL); [| reflexivity].
        now apply lookup_insert_ne.
      * destruct (item (value_fn d)) as [f|e]; [cbn [rbind] in Hm | discriminate Hm].
        destruct (f _ state) as [w|e]; [cbn [rbind] in Hm | discriminate Hm].
        rewrite (IH ltac:(tauto) _ _ Hm). rewrite lookup_insert_ne by exact Hk.
        destruct (value_eq_float v SENTINEL); [| reflexivity].
        now apply lookup_insert_ne.
    + cbn [rbind] in Hm. destruct (negb (String.eqb (type_ d) "custom")).
      * exact (IH ltac:(tauto) _ _ Hm).
      * destruct (item (value_fn d)) as [f|e]; [cbn [rbind] in Hm | discriminate Hm].
        destruct (f _ state) as [w|e]; [cbn [rbind] in Hm | discriminate Hm].
        rewrite (IH ltac:(tauto) _ _ Hm). now apply lookup_insert_ne.
Qed.

(** A temperature that is no custom field keeps its value, unless the
    value equals the sentinel: then it becomes [None]. *)
Lemma derive_loop_temperature (table : list (string * definition)) :
  List.NoDup (map fst table) ->
  forall info m name d,
    derive_loop state table info = Ok m ->
    In (name, d) table ->
    entity_type d = "temperature" -> type_ d <> "custom" ->
    exists v, info !! name = Some v
              /\ m !! name = Some (if value_eq_float v SENTINEL then VNone else v).
Proof.
  induction table as [|[k d0] rest IH]; intros Hnd info m name d Hm Hin Hent Hty;
    [destruct Hin |].
  cbn [map fst] in Hnd. apply List.NoDup_cons_iff in Hnd as [Hk Hnd].
  cbn [derive_loop] in Hm. destruct Hin as [Heq | Hin].
  - injection Heq as -> ->. rewrite Hent in Hm.
    cbn [String.eqb Ascii.eqb Bool.eqb] in Hm.
    destruct (info !! name) as [v|] eqn:Hv;
      [cbn [of_option rbind] in Hm | discriminate Hm].
    destruct (String.eqb_spec (type_ d) "custom") as [E | _]; [contradiction |].
    cbn [negb] in Hm. exists v. split; [reflexivity |].
    rewrite (derive_loop_other rest name Hk _ _ Hm).
    destruct (value_eq_float v SENTINEL); [apply lookup_insert_eq | exact Hv].
  - assert (Hne : k <> name).
    { intros ->. apply Hk. apply (in_map fst) in Hin. exact Hin. }
    destruct (String.eqb (entity_type d0) "temperature").
    + destruct (info !! k) as [v0|]; [cbn [of_option rbind] in Hm | discriminate Hm].
      assert (Hkeep : forall w, (if value_eq_float v0 SENTINEL
                                 then <[k := w]> info else info) !! name
                                = info !! name).
      { intros w. destruct (value_eq_float v0 SENTINEL); [| reflexivity].
        now apply lookup_insert_ne. }
      destruct (negb (String.eqb (type_ d0) "custom")).
      * destruct (IH Hnd _ _ name d Hm Hin Hent Hty) as (v & Hv & Hmv).
        exists v. rewrite Hkeep in Hv. now split.
      * destruct (item (value_fn d0)) as [f|e]; [cbn [rbind] in Hm | discriminate Hm].
        destruct (f _ state) as [w|e]; [cbn [rbind] in Hm | discriminate Hm].
        destruct (IH Hnd _ _ name d Hm Hin Hent Hty) as (v & Hv & Hmv).
        exists v. rewrite lookup_insert_ne, Hkeep in Hv by exact Hne. now split.
    + cbn [rbind] in Hm. destruct (negb (String.eqb (type_ d0) "custom")).
      * exact (IH Hnd _ _ name d Hm Hin Hent Hty).
      * destruct (item (value_fn d0)) as [f|e]; [cbn [rbind] in Hm | discriminate Hm].
        destruct (f _ state) as [w|e]; [cbn [rbind] in Hm | discriminate Hm].
        destruct (IH Hnd _ _ name d Hm Hin Hent Hty) as (v & Hv & Hmv).
        exists v. rewrite lookup_insert_ne in Hv by exact Hne. now split.
Qed.

End Snapshot.

Lemma mapping_keys_nodup : List.NoDup (map fst MAPPING).
Proof.
  cbn. repeat (constructor; [cbn; intros H;
    repeat (destruct H as [H | H]; [discriminate H |]); exact H |]).
  constructor.
Qed.

Lemma mapping_temperatures (name : string) (d : definition) :
  In (name, d) MAPPING -> entity_type d = "temperature" ->
  type_ d = "float" /\ data_type d = Register.
Proof.
  intros Hin Hent. unfold MAPPING in Hin. cbn [In] in Hin.
  repeat (destruct Hin as [Hin | Hin];
          [injection Hin as <- <-; first [discriminate Hent | now split] |]).
  destruct Hin.
Qed.

(** C6.  In the snapshot that [get] builds, every field whose entity
    type is temperature holds [None] when the float decoded from its
    register equals the sentinel -999.9, and that float unchanged
    otherwise; a register that reads ["d8f1"] decodes to -999.9 exactly,
    one that reads ["d8f2"] to -999.8, which is kept. *)
Theorem sentinel_becomes_none (state : AddressSpace) (device : EcoGeoDevice) :
  snapshot state = Ok device ->
  (forall name d,
      In (name, d) MAPPING -> entity_type d = "temperature" ->
      exists a raw x,
        address d = Some a
        /\ registers state !! a = Some raw
        /\ parse_ecoforest_float raw = Ok x
        /\ info device !! name
           = Some (if PrimFloat.eqb x SENTINEL then VNone else VFloat x))
  /\ SENTINEL = (-999.9)%float
  /\ parse_ecoforest_float "d8f1" = Ok (-999.9)%float
  /\ PrimFloat.eqb (-999.9) SENTINEL = true
  /\ parse_ecoforest_float "d8f2" = Ok (-999.8)%float
  /\ PrimFloat.eqb (-999.8) SENTINEL = false.
Proof.
  intros Hsnap. split; [| repeat split; vm_compute; reflexivity].
  intros name d Hin Hent.
  unfold snapshot in Hsnap.
  destruct (build_device_info state) as [device_info | e] eqn:Hinfo;
    [cbn [rbind] in Hsnap | discriminate Hsnap].
  destruct (parse_model_name state) as [model | e];
    [cbn [rbind] in Hsnap | discriminate Hsnap].
  injection Hsnap as <-. cbn [info].
  unfold build_device_info in Hinfo.
  destruct (decode_loop state MAPPING ∅) as [m1 | e] eqn:H1;
    [cbn [rbind] in Hinfo | discriminate Hinfo].
  destruct (mapping_temperatures name d Hin Hent) as [Hty Hdt].
  destruct (decode_loop_float state MAPPING mapping_keys_nodup _ _ name d H1 Hin Hty)
    as (a & raw & x & Ha & Hraw & Hx & Hm1).
  destruct (derive_loop_temperature state MAPPING mapping_keys_nodup _ _ name d
              Hinfo Hin Hent) as (v & Hv & Hfinal).
  { rewrite Hty. discriminate. }
  rewrite Hm1 in Hv. injection Hv as <-.
  rewrite Hdt in Hraw. cbn [space] in Hraw.
  exists a, raw, x. repeat split; try assumption.
Qed.

Lemma sentinel_becomes_none_witness :
  exists device,
    snapshot (zero_space [(11, "d8f1"); (20, "d8f2")]) = Ok device
    /\ info device !! "t_dhw" = Some VNone
    /\ info device !! "t_outdoor" = Some (VFloat (-999.8)).
Proof.
  destruct (snapshot (zero_space [(11, "d8f1"); (20, "d8f2")]))
    as [device | e] eqn:H.
  - exists device. split; [reflexivity |].
    pose proof (proj1 (sentinel_becomes_none _ device H)) as Hall.
    split.
    + destruct (Hall "t_dhw" (temperature_field 11) ltac:(cbn; tauto) eq_refl)
        as (a & raw & x & Ha & Hraw & Hx & Hinfo).
      injection Ha as <-. vm_compute in Hraw. injection Hraw as <-.
      vm_compute in Hx. injection Hx as <-. exact Hinfo.
    + destruct (Hall "t_outdoor" (temperature_field 20) ltac:(cbn; tauto) eq_refl)
        as (a & raw & x & Ha & Hraw & Hx & Hinfo).
      injection Ha as <-. vm_compute in Hraw. injection Hraw as <-.
      vm_compute in Hx. injection Hx as <-. exact Hinfo.
  - exfalso. vm_compute in H. discriminate H.
Defined.

(** ** The fixed-width hex rendering *)

(** One step of [hex]: the last nibble becomes the last digit. *)
Lemma of_pos_nibble (p : positive) (rest : string) :
  HexString.Raw.of_pos p rest =
  if Z.shiftr (Z.pos p) 4 =? 0
  then String (hex_char (Z.land (Z.pos p) 15)) rest
  else HexString.Raw.of_pos (Z.to_pos (Z.shiftr (Z.pos p) 4))
         (String (hex_char (Z.land (Z.pos p) 15)) rest).
Proof.
  destruct p as [[[[q|q|]|[q|q|]|]|[[q|q|]|[q|q|]|]|]
                |[[[q|q|]|[q|q|]|]|[[q|q|]|[q|q|]|]|]|]; reflexivity.
Qed.

Lemma of_pos_digit (n : Z) (rest : string) :
  0 < n ->
  HexString.Raw.of_pos (Z.to_pos n) rest =
  if n / 16 =? 0 then String (hex_char (n mod 16)) rest
  else HexString.Raw.of_pos (Z.to_pos (n / 16)) (String (hex_char (n mod 16)) rest).
Proof.
  intros Hn. rewrite of_pos_nibble. rewrite Z2Pos.id by exact Hn.
  rewrite Z.shiftr_div_pow2 by lia.
  change 15 with (Z.ones 4). rewrite Z.land_ones by lia.
  reflexivity.
Qed.

Lemma of_pos_rest (n : Z) :
  0 <= n -> forall rest, 0 < n ->
  HexString.Raw.of_pos (Z.to_pos n) rest
  = String.append (HexString.Raw.of_pos (Z.to_pos n) "") rest.
Proof.
  intros Hn. revert n Hn.
  refine (Z_lt_induction
            (fun n => forall rest, 0 < n ->
               HexString.Raw.of_pos (Z.to_pos n) rest
               = String.append (HexString.Raw.of_pos (Z.to_pos n) "") rest) _).
  intros n IH rest Hn.
  rewrite (of_pos_digit n rest Hn), (of_pos_digit n "" Hn).
  destruct (Z.eqb_spec (n / 16) 0) as [_ | Hq]; [reflexivity |].
  assert (Hlt : 0 < n / 16 < n).
  { pose proof (Z.div_pos n 16). pose proof (Z.div_lt n 16). lia. }
  rewrite (IH (n / 16) ltac:(lia) (String _ rest)) by lia.
  rewrite (IH (n / 16) ltac:(lia) (String _ "")) by lia.
  rewrite append_assoc. reflexivity.
Qed.

(** The digits of [hex n] without the prefix, and none for zero. *)
Lemma of_pos_snoc (n : Z) :
  0 < n ->
  HexString.Raw.of_pos (Z.to_pos n) ""
  = String.append
      (if n / 16 =? 0 then "" else HexString.Raw.of_pos (Z.to_pos (n / 16)) "")
      (String (hex_char (n mod 16)) "").
Proof.
  intros Hn. rewrite (of_pos_digit n "" Hn).
  destruct (Z.eqb_spec (n / 16) 0) as [_ | Hq]; [reflexivity |].
  apply of_pos_rest; pose proof (Z.div_pos n 16); lia.
Qed.

Lemma hex_nonneg (n : Z) :
  0 <= n ->
  slice_from 2 (hex n)
  = String.append
      (if n / 16 =? 0 then "" else slice_from 2 (hex (n / 16)))
      (String (hex_char (n mod 16)) "").
Proof.
  intros Hn. destruct n as [|p|p]; [reflexivity | | lia].
  change (slice_from 2 (hex (Z.pos p)))
    with (HexString.Raw.of_pos (Z.to_pos (Z.pos p)) "").
  rewrite of_pos_snoc by lia.
  destruct (Z.eqb_spec (Z.pos p / 16) 0) as [_ | Hq]; [reflexivity |].
  assert (0 < Z.pos p / 16) by (pose proof (Z.div_pos (Z.pos p) 16); lia).
  destruct (Z.pos p / 16) as [|q|q]; [lia | reflexivity | lia].
Qed.

Lemma length_append (s t : string) :
  String.length (String.append s t) = (String.length s + String.length t)%nat.
Proof.
  induction s as [|c s IH]; [reflexivity |]. rewrite append_cons. cbn [String.length].
  now rewrite IH.
Qed.

Lemma drop_str_append (s t : string) :
  drop_str (String.length s) (String.append s t) = t.
Proof.
  induction s as [|c s IH]; [now destruct t |]. rewrite append_cons. exact IH.
Qed.

Lemma slice_last_append (s t : string) :
  slice_last (String.length t) (String.append s t) = t.
Proof.
  unfold slice_last. rewrite length_append.
  replace (String.length s + String.length t - String.length t)%nat
    with (String.length s) by lia.
  apply drop_str_append.
Qed.

Lemma hex4_digits (n : Z) :
  hex4 (n mod 65536)
  = str4 (hex_char (n / 4096 mod 16)) (hex_char (n / 256 mod 16))
         (hex_char (n / 16 mod 16)) (hex_char (n mod 16)).
Proof.
  unfold hex4.
  replace (n mod 65536 / 4096 mod 16) with (n / 4096 mod 16)
    by (Z.div_mod_to_equations; lia).
  replace (n mod 65536 / 256 mod 16) with (n / 256 mod 16)
    by (Z.div_mod_to_equations; lia).
  replace (n mod 65536 / 16 mod 16) with (n / 16 mod 16)
    by (Z.div_mod_to_equations; lia).
  replace (n mod 65536 mod 16) with (n mod 16)
    by (Z.div_mod_to_equations; lia).
  reflexivity.
Qed.

(** Padding [hex(n)[2:]] with four zeros leaves the four low hex digits
    of [n] at the end. *)
Lemma padded_hex_tail (n : Z) :
  0 <= n ->
  exists pre, String.append "0000" (slice_from 2 (hex n))
              = String.append pre (hex4 (n mod 65536)).
Proof.
  intros Hn. rewrite hex4_digits.
  assert (D1 : n / 16 / 16 = n / 256) by (rewrite Z.div_div by lia; reflexivity).
  assert (D2 : n / 256 / 16 = n / 4096) by (rewrite Z.div_div by lia; reflexivity).
  assert (Z1 : n / 16 = 0 -> n / 256 = 0) by (intros E; rewrite <- D1, E; reflexivity).
  assert (Z2 : n / 256 = 0 -> n / 4096 = 0) by (intros E; rewrite <- D2, E; reflexivity).
  rewrite (hex_nonneg n Hn).
  destruct (Z.eqb_spec (n / 16) 0) as [E1 | N1].
  { exists "0". rewrite (Z2 (Z1 E1)), (Z1 E1), E1. reflexivity. }
  rewrite (hex_nonneg (n / 16)) by (apply Z.div_pos; lia). rewrite D1.
  destruct (Z.eqb_spec (n / 256) 0) as [E2 | N2].
  { exists "00". rewrite (Z2 E2), E2. reflexivity. }
  rewrite (hex_nonneg (n / 256)) by (apply Z.div_pos; lia). rewrite D2.
  destruct (Z.eqb_spec (n / 4096) 0) as [E3 | N3].
  { exists "000". rewrite E3. reflexivity. }
  rewrite (hex_nonneg (n / 4096)) by (apply Z.div_pos; lia).
  exists (String.append "0000"
            (if n / 4096 / 16 =? 0 then "" else slice_from 2 (hex (n / 4096 / 16)))).
  unfold str4. rewrite !append_assoc, !append_cons. reflexivity.
Qed.

Lemma padded_hex_low4 (n : Z) :
  0 <= n ->
  slice_last 4 (String.append "0000" (slice_from 2 (hex n))) = hex4 (n mod 65536).
Proof.
  intros Hn. destruct (padded_hex_tail n Hn) as [pre ->].
  exact (slice_last_append pre (hex4 (n mod 65536))).
Qed.

Lemma hex_char_lower (d : Z) : 0 <= d < 16 -> is_lower_hex (hex_char d) = true.
Proof.
  intros Hd.
  assert (C : d = 0 \/ d = 1 \/ d = 2 \/ d = 3 \/ d = 4 \/ d = 5 \/ d = 6 \/ d = 7
              \/ d = 8 \/ d = 9 \/ d = 10 \/ d = 11 \/ d = 12 \/ d = 13 \/ d = 14
              \/ d = 15) by lia.
  repeat (destruct C as [-> | C]; [reflexivity |]). subst d. reflexivity.
Qed.

Lemma hex4_lower (n : Z) : all_chars is_lower_hex (hex4 n) = true.
Proof.
  unfold all_chars, hex4, str4. cbn [list_ascii_of_string forallb].
  rewrite !hex_char_lower by (apply Z.mod_pos_bound; lia). reflexivity.
Qed.

(** C7 (as amended).  When ten times the value truncates to an integer
    [t] that is at least -65536, the encoder returns the four low
    lowercase hex digits of [t], taken after adding 65536 when [t] is
    negative: a string of exactly four characters, each a lowercase hex
    digit. *)
Theorem convert_to_ecoforest_int_low4 (value : float) (t : Z) :
  int_of_float (value * 10) = Ok t ->
  -65536 <= t ->
  let u := if t <? 0 then t + 65536 else t in
  convert_to_ecoforest_int value = Ok (hex4 (u mod 65536))
  /\ String.length (hex4 (u mod 65536)) = 4%nat
  /\ all_chars is_lower_hex (hex4 (u mod 65536)) = true.
Proof.
  intros Ht Hlow u. split; [| split; [reflexivity | apply hex4_lower]].
  unfold convert_to_ecoforest_int. rewrite Ht. cbn [rbind]. fold u.
  rewrite padded_hex_low4; [reflexivity |].
  subst u. destruct (Z.ltb_spec t 0); lia.
Qed.

Lemma convert_to_ecoforest_int_low4_witness :
  int_of_float (21.5 * 10) = Ok 215
  /\ -65536 <= 215
  /\ convert_to_ecoforest_int 21.5 = Ok "00d7"
  /\ int_of_float (-0.1 * 10) = Ok (-1)
  /\ convert_to_ecoforest_int (-0.1) = Ok "ffff"
  /\ int_of_float (7000 * 10) = Ok 70000
  /\ convert_to_ecoforest_int 7000 = Ok "1170".
Proof.
  split; [vm_compute; reflexivity |]. split; [lia |].
  split; [exact (proj1 (convert_to_ecoforest_int_low4 21.5 215 eq_refl ltac:(lia))) |].
  split; [vm_compute; reflexivity |].
  split; [exact (proj1 (convert_to_ecoforest_int_low4 (-0.1) (-1) eq_refl ltac:(lia))) |].
  split; [vm_compute; reflexivity |].
  exact (proj1 (convert_to_ecoforest_int_low4 7000 70000 eq_refl ltac:(lia))).
Defined.

(** C7, the claim as written fails once ten times the value truncates
    below -65536, and on the values that have no integer part: -6600.0 truncates to -66000, which stays negative
    after 65536 is added, so [hex] renders a sign and the result keeps the
    [x] of the prefix; a NaN and an infinity raise instead of returning. *)
Lemma convert_to_ecoforest_int_not_always_hex :
  convert_to_ecoforest_int (-6600) = Ok "x1d0"
  /\ all_chars is_lower_hex "x1d0" = false
  /\ convert_to_ecoforest_int nan = Raise ValueError
  /\ convert_to_ecoforest_int infinity = Raise OverflowError.
Proof. repeat split; vm_compute; reflexivity. Qed.

(* ===================================================================== *)
(** * Loading one range *)
(* ===================================================================== *)

(** The loop of [_load_data] on a response that is long enough: address
    [a + k] receives item [k]. *)
Lemma load_loop_range (response : list string) (a : Z) :
  forall (n i : nat) (acc : gmap Z string),
    (i + n <= List.length response)%nat ->
    exists m,
      load_loop response (map (fun k => a + Z.of_nat k) (seq i n)) i acc = Ok m
      /\ forall x, m !! x
                   = if (a + Z.of_nat i <=? x) && (x <? a + Z.of_nat (i + n))
                     then response !! Z.to_nat (x - a) else acc !! x.
Proof.
  induction n as [|n IH]; intros i acc Hlen.
  - exists acc. split; [reflexivity |]. intros x.
    destruct (Z.leb_spec (a + Z.of_nat i) x), (Z.ltb_spec x (a + Z.of_nat (i + 0)));
      cbn [andb]; try reflexivity; lia.
  - cbn [seq map load_loop].
    destruct (response !! i) as [raw|] eqn:Hraw.
    2:{ apply lookup_ge_None in Hraw. lia. }
    cbn [of_option rbind].
    destruct (IH (S i) (<[a + Z.of_nat i := raw]> acc) ltac:(lia)) as (m & Hm & Hx).
    exists m. split; [exact Hm |]. intros x. rewrite Hx.
    destruct (Z.leb_spec (a + Z.of_nat (S i)) x),
             (Z.ltb_spec x (a + Z.of_nat (S i + n))),
             (Z.leb_spec (a + Z.of_nat i) x),
             (Z.ltb_spec x (a + Z.of_nat (i + S n))); cbn [andb];
      first [ reflexivity | lia
            | rewrite lookup_insert_ne by lia; reflexivity
            | assert (x = a + Z.of_nat i) as -> by lia;
              rewrite lookup_insert_eq;
              replace (Z.to_nat (a + Z.of_nat i - a)) with i by lia;
              now rewrite Hraw ].
Qed.

(** On a response that is too short the loop runs off its end. *)
Lemma load_loop_short (response : list string) (a : Z) :
  forall (n i : nat) (acc : gmap Z string),
    (i <= List.length response)%nat ->
    (List.length response < i + n)%nat ->
    load_loop response (map (fun k => a + Z.of_nat k) (seq i n)) i acc
    = Raise IndexError.
Proof.
  induction n as [|n IH]; intros i acc Hi Hlen; [lia |].
  cbn [seq map load_loop].
  destruct (response !! i) as [raw|] eqn:Hraw; [| reflexivity].
  cbn [of_option rbind]. apply lookup_lt_Some in Hraw.
  apply IH; lia.
Qed.

(** X1.  When the transport answers a read with at least [length]
    items, [_load_data] sends that one request and returns the dictionary
    that maps [address + k] to item [k] for each [k] below [length], and
    nothing else; items beyond [length] are ignored. *)
Theorem _load_data_maps_response
    (W : Type) (_request : W -> request -> result (list string) * W)
    (address length op_type : Z) (s : session) (response : list string) (w' : W) :
  _request (world s) (mkRequest op_type address length None) = (Ok response, w') ->
  (Z.to_nat length <= List.length response)%nat ->
  exists d,
    _load_data _request address length op_type s
    = (Ok d, mkSession w' (sent s ++ [mkRequest op_type address length None]))
    /\ (forall x, address <= x < address + length ->
                  d !! x = response !! Z.to_nat (x - address))
    /\ (forall x, ~ (address <= x < address + length) -> d !! x = None).
Proof.
  intros Hreq Hlen.
  destruct (load_loop_range response address (Z.to_nat length) 0 ∅ Hlen)
    as (d & Hd & Hx).
  exists d. split.
  { unfold _load_data, bind, send, lift. rewrite Hreq.
    unfold range. rewrite Hd. reflexivity. }
  split; intros x Hin; rewrite Hx.
  - destruct (Z.leb_spec (address + Z.of_nat 0) x),
             (Z.ltb_spec x (address + Z.of_nat (0 + Z.to_nat length)));
      cbn [andb]; try reflexivity; lia.
  - destruct (Z.leb_spec (address + Z.of_nat 0) x),
             (Z.ltb_spec x (address + Z.of_nat (0 + Z.to_nat length)));
      cbn [andb]; try apply lookup_empty; lia.
Qed.

Lemma _load_data_maps_response_witness :
  exists d,
    _load_data zero_device 212 15 OP_TYPE_GET_SWITCH fresh
    = (Ok d, mkSession tt [mkRequest OP_TYPE_GET_SWITCH 212 15 None])
    /\ d !! 226 = Some "0" /\ d !! 227 = None.
Proof.
  destruct (_load_data_maps_response unit zero_device 212 15 OP_TYPE_GET_SWITCH
              fresh (repeat "0" 15) tt eq_refl ltac:(cbn; lia))
    as (d & Hd & Hin & Hout).
  exists d. split; [exact Hd |]. split.
  - rewrite (Hin 226) by lia. reflexivity.
  - apply Hout. lia.
Defined.

(** X2.  When the transport answers a read with fewer than [length]
    items, [_load_data] raises [IndexError], after the request was sent. *)
Theorem _load_data_short_response
    (W : Type) (_request : W -> request -> result (list string) * W)
    (address length op_type : Z) (s : session) (response : list string) (w' : W) :
  _request (world s) (mkRequest op_type address length None) = (Ok response, w') ->
  (List.length response < Z.to_nat length)%nat ->
  _load_data _request address length op_type s
  = (Raise IndexError, mkSession w' (sent s ++ [mkRequest op_type address length None])).
Proof.
  intros Hreq Hlen. unfold _load_data, bind, send, lift. rewrite Hreq.
  unfold range. rewrite load_loop_short by lia. reflexivity.
Qed.

Lemma _load_data_short_response_witness :
  _load_data zero_device 1 41 OP_TYPE_SET_SWITCH fresh
  = (Raise IndexError, mkSession tt [mkRequest OP_TYPE_SET_SWITCH 1 41 None]).
Proof.
  exact (_load_data_short_response unit zero_device 1 41 OP_TYPE_SET_SWITCH
           fresh [] tt eq_refl ltac:(cbn; lia)).
Defined.

(* ===================================================================== *)
(** * The poll *)
(* ===================================================================== *)

Lemma load_loop_only (response : list string) (addresses : list Z) :
  forall index acc m,
    load_loop response addresses index acc = Ok m ->
    forall x, is_Some (m !! x) -> In x addresses \/ is_Some (acc !! x).
Proof.
  induction addresses as [|i rest IH]; intros index acc m Hm x Hx.
  - cbn in Hm. injection Hm as <-. now right.
  - cbn [load_loop] in Hm.
    destruct (response !! index) as [raw|]; [cbn in Hm | discriminate Hm].
    destruct (IH _ _ _ Hm x Hx) as [Hin | Hacc].
    + left. now right.
    + destruct (decide (i = x)) as [<- | Hne]; [left; now left |].
      rewrite lookup_insert_ne in Hacc by exact Hne. now right.
Qed.

Lemma space_update_only (st : AddressSpace) (dt dt' : DataTypes)
    (d : gmap Z string) (x : Z) :
  is_Some (space (space_update st dt d) dt' !! x) ->
  is_Some (space st dt' !! x) \/ (dt' = dt /\ is_Some (d !! x)).
Proof.
  destruct dt, dt'; cbn [space_update space coils registers];
    rewrite ?lookup_union_is_Some; tauto.
Qed.

Section PollPlan.

Context {W : Type}.
Variable _request : W -> request -> result (list string) * W.

(** [_load_data] sends one request, whatever comes of it. *)
Lemma _load_data_sent (address length op_type : Z) (s : session) :
  sent (snd (_load_data _request address length op_type s))
  = (sent s ++ [mkRequest op_type address length None])%list.
Proof.
  unfold _load_data, bind, send, lift.
  destruct (_request (world s) _) as [[response | e] w]; reflexivity.
Qed.

Lemma _load_data_only (address length op_type : Z) (s s' : session)
    (d : gmap Z string) :
  _load_data _request address length op_type s = (Ok d, s') ->
  forall x, is_Some (d !! x) -> address <= x < address + length.
Proof.
  unfold _load_data, bind, send, lift. intros H x Hx.
  destruct (_request (world s) _) as [[response | e] w]; [| discriminate H].
  injection H as H _.
  destruct (load_loop_only _ _ _ _ _ H x Hx) as [Hin | Hacc].
  - now apply in_range.
  - rewrite lookup_empty in Hacc. now destruct Hacc.
Qed.

(** The requests of one data type are sent in the order of the table,
    up to the first that fails. *)
Lemma load_requests_sent (dt : DataTypes) (requests : list read_request) :
  forall st s,
    exists k,
      sent (snd (load_requests _request dt requests st s))
      = (sent s ++ take k (map (read_of dt) requests))%list
      /\ (forall st', fst (load_requests _request dt requests st s) = Ok st' ->
                      k = List.length requests).
Proof.
  induction requests as [|rq rest IH]; intros st s.
  - exists 0%nat. cbn. rewrite app_nil_r. now split.
  - cbn [load_requests]. unfold bind at 1 2.
    pose proof (_load_data_sent (rq_address rq) (rq_length rq) (Operations.Get dt) s)
      as Hs.
    destruct (_load_data _ _ _ _ s) as [[d | e] s1]; cbn [snd] in Hs.
    + destruct (IH (space_update st dt d) s1) as (k & Hk & Hall).
      exists (S k). split.
      * rewrite Hk, Hs. cbn [map take]. rewrite <- app_assoc. reflexivity.
      * intros st' Hok. cbn [List.length]. f_equal. exact (Hall st' Hok).
    + exists 1%nat. split.
      * cbn [snd map take]. rewrite Hs. now rewrite take_0.
      * intros st' Hok. discriminate Hok.
Qed.

Lemma load_requests_only (dt : DataTypes) (requests : list read_request) :
  forall st s st' s',
    load_requests _request dt requests st s = (Ok st', s') ->
    forall dt' x,
      is_Some (space st' dt' !! x) ->
      is_Some (space st dt' !! x)
      \/ (dt' = dt /\ existsb (in_request x) requests = true).
Proof.
  induction requests as [|rq rest IH]; intros st s st' s' H dt' x Hx.
  - cbn in H. injection H as <- _. now left.
  - cbn [load_requests] in H. unfold bind at 1 in H.
    destruct (_load_data _ _ _ _ s) as [[d | e] s1] eqn:Hd; [| discriminate H].
    destruct (IH _ _ _ _ H dt' x Hx) as [Hst | [-> Hrest]].
    + destruct (space_update_only _ _ _ _ _ Hst) as [Hold | [-> Hnew]];
        [now left |].
      right. split; [reflexivity |]. cbn [existsb].
      pose proof (_load_data_only _ _ _ _ _ _ Hd x Hnew) as Hr.
      apply orb_true_intro. left. unfold in_request.
      apply andb_true_intro. split; [apply Z.leb_le | apply Z.ltb_lt]; lia.
    + right. split; [reflexivity |]. cbn [existsb]. rewrite Hrest.
      apply orb_true_r.
Qed.

Lemma poll_sent (s : session) :
  exists k,
    sent (snd (poll _request s)) = (sent s ++ take k poll_requests)%list
    /\ (forall state, fst (poll _request s) = Ok state ->
                      sent (snd (poll _request s)) = (sent s ++ poll_requests)%list).
Proof.
  unfold poll. cbn [load_types].
  destruct (load_requests_sent Coil (REQUESTS Coil) (mkSpace ∅ ∅) s)
    as (k1 & Hk1 & Hall1).
  unfold bind, ret.
  destruct (load_requests _ Coil _ _ s) as [[st1 | e] s1]; cbn [fst snd] in *.
  - specialize (Hall1 st1 eq_refl). subst k1.
    destruct (load_requests_sent Register (REQUESTS Register) st1 s1)
      as (k2 & Hk2 & Hall2).
    destruct (load_requests _ Register _ _ s1) as [[st2 | e] s2]; cbn [fst snd] in *.
    + specialize (Hall2 st2 eq_refl). subst k2.
      exists 5%nat. split; [| intros ? _]; rewrite Hk2, Hk1, <- app_assoc; reflexivity.
    + exists (3 + k2)%nat. split; [| intros st Hst; discriminate Hst].
      rewrite Hk2, Hk1, <- app_assoc. reflexivity.
  - exists (Nat.min k1 3). split; [| intros st Hst; discriminate Hst].
    rewrite Hk1. f_equal. destruct k1 as [|[|[|[|]]]]; reflexivity.
Qed.

Lemma poll_only (s s' : session) (state : AddressSpace) :
  poll _request s = (Ok state, s') ->
  forall dt x, is_Some (space state dt !! x) -> covered dt x = true.
Proof.
  unfold poll. cbn [load_types]. unfold bind at 1. intros H dt x Hx.
  destruct (load_requests _ Coil _ _ s) as [[st1 | e] s1] eqn:H1; [| discriminate H].
  unfold bind at 1 in H.
  destruct (load_requests _ Register _ _ s1) as [[st2 | e] s2] eqn:H2;
    [| discriminate H].
  cbn in H. injection H as <- _.
  destruct (load_requests_only _ _ _ _ _ _ H2 dt x Hx) as [Hst | [-> Hc]];
    [| exact Hc].
  destruct (load_requests_only _ _ _ _ _ _ H1 dt x Hst) as [Hst0 | [-> Hc]];
    [| exact Hc].
  destruct dt; cbn in Hst0; rewrite lookup_empty in Hst0; now destruct Hst0.
Qed.

End PollPlan.

(** X3.  [get] sends read requests only, in the order of [REQUESTS]:
    the three coil ranges with operation 2001, then the two register
    ranges with operation 2002.  Whatever happens, what it has sent is an
    initial part of that list, and when it returns a device it has sent
    all five, once each. *)
Theorem get_sends_the_read_plan
    (W : Type) (_request : W -> request -> result (list string) * W)
    (s : session) :
  poll_requests
  = [ mkRequest 2001 1 41 None; mkRequest 2001 83 1 None;
      mkRequest 2001 212 15 None;
      mkRequest 2002 11 31 None; mkRequest 2002 5323 6 None ]
  /\ (exists k, sent (snd (get _request s))
                = (sent s ++ take k poll_requests)%list)
  /\ (forall device, fst (get _request s) = Ok device ->
        sent (snd (get _request s)) = (sent s ++ poll_requests)%list).
Proof.
  split; [reflexivity |].
  destruct (poll_sent _request s) as (k & Hk & Hall).
  unfold get, bind, lift.
  destruct (poll _request s) as [[state | e] s1]; cbn [fst snd] in *.
  - split; [exists k; exact Hk |]. intros device _. exact (Hall state eq_refl).
  - split; [exists k; exact Hk |]. intros device Hd. discriminate Hd.
Qed.

(** X4.  The address space of a poll that succeeds holds exactly the
    addresses of the read plan: a coil or register address is present if
    and only if one of the ranges of [REQUESTS] for its data type
    contains it. *)
Theorem poll_reads_exactly_the_plan
    (W : Type) (_request : W -> request -> result (list string) * W)
    (s s' : session) (state : AddressSpace) :
  poll _request s = (Ok state, s') ->
  (forall a, is_Some (coils state !! a)
             <-> 1 <= a <= 41 \/ a = 83 \/ 212 <= a <= 226)
  /\ (forall a, is_Some (registers state !! a)
                <-> 11 <= a <= 41 \/ 5323 <= a <= 5328).
Proof.
  intros Hpoll. split; intros a.
  - rewrite <- covered_coil. split.
    + exact (poll_only _request s s' state Hpoll Coil a).
    + exact (poll_reads _request s s' state Hpoll Coil a).
  - rewrite <- covered_register. split.
    + exact (poll_only _request s s' state Hpoll Register a).
    + exact (poll_reads _request s s' state Hpoll Register a).
Qed.

Lemma poll_reads_exactly_the_plan_witness :
  exists state s',
    poll zero_device fresh = (Ok state, s')
    /\ is_Some (coils state !! 83) /\ ~ is_Some (coils state !! 84).
Proof.
  destruct (poll zero_device fresh) as [[state | e] s'] eqn:H.
  - exists state, s'. split; [reflexivity |].
    destruct (poll_reads_exactly_the_plan unit zero_device fresh s' state H)
      as [Hc _].
    split; [apply Hc; lia |]. intros Hs. apply Hc in Hs. lia.
  - exfalso. vm_compute in H. discriminate H.
Defined.

(* ===================================================================== *)
(** * Writing, then polling again *)
(* ===================================================================== *)

Lemma assoc_mapping_has (name : string) (d : definition) :
  assoc name MAPPING = Some d -> mapping_has name = true.
Proof. intros H. unfold mapping_has. now rewrite H. Qed.

(** X5.  For a name of [MAPPING] that has an address, [turn_switch]
    sends one coil write (operation 2011, that address, one item, and the
    flag as both key and value of the extra entry) and then runs [get] in
    the session that follows; the reply to the write is not looked at.
    When the write fails its exception is raised and nothing is read.
    With [on = None] the flag cannot be built: [TypeError], nothing sent. *)
Theorem turn_switch_writes_then_polls
    (W : Type) (_request : W -> request -> result (list string) * W)
    (name : string) (d : definition) (a : Z) (on : bool) (s : session) :
  assoc name MAPPING = Some d ->
  address d = Some a ->
  let flag := if on then 1 else 0 in
  let write := mkRequest OP_TYPE_SET_SWITCH a 1 (Some (PInt flag, PInt flag)) in
  (forall reply w',
      _request (world s) write = (Ok reply, w') ->
      turn_switch _request name (Some on) s
      = get _request (mkSession w' (sent s ++ [write])))
  /\ (forall e w',
      _request (world s) write = (Raise e, w') ->
      turn_switch _request name (Some on) s
      = (Raise e, mkSession w' (sent s ++ [write])))
  /\ turn_switch _request name None s = (Raise TypeError, s).
Proof.
  intros Hd Ha flag write.
  unfold turn_switch. rewrite (assoc_mapping_has name d Hd). cbn [negb].
  rewrite Hd. cbn [of_option rbind]. rewrite Ha. unfold item. cbn [of_option rbind].
  split; [| split].
  - intros reply w' Hreq. subst write flag.
    destruct on; cbn [int_of_flag rbind]; unfold bind at 1, lift;
      unfold bind at 1, send; rewrite Hreq; reflexivity.
  - intros e w' Hreq. subst write flag.
    destruct on; cbn [int_of_flag rbind]; unfold bind at 1, lift;
      unfold bind at 1, send; rewrite Hreq; reflexivity.
  - reflexivity.
Qed.

Lemma turn_switch_writes_then_polls_witness :
  turn_switch zero_device "switch_dhw" (Some true) fresh
  = get zero_device
      (mkSession tt [mkRequest OP_TYPE_SET_SWITCH 213 1 (Some (PInt 1, PInt 1))])
  /\ turn_switch zero_device "switch_dhw" None fresh = (Raise TypeError, fresh).
Proof.
  pose proof (turn_switch_writes_then_polls unit zero_device "switch_dhw"
                (coil_field 213 "switch") 213 true fresh eq_refl eq_refl)
    as (Hok & _ & Hnone).
  split; [exact (Hok [] tt eq_refl) | exact Hnone].
Defined.

(** X6.  For a name of [MAPPING] that has an address, [set_numeric_value]
    encodes the value, sends one register write (operation 2012, that
    address, one item, and the encoded string as both key and value of
    the extra entry) and then runs [get]; the bounds [min], [max] and the
    [step] of the definition play no part.  When the write fails its
    exception is raised and nothing is read; when the value cannot be
    encoded the exception of the encoder is raised and nothing is sent. *)
Theorem set_numeric_value_writes_then_polls
    (W : Type) (_request : W -> request -> result (list string) * W)
    (name : string) (d : definition) (a : Z) (value : float) (s : session) :
  assoc name MAPPING = Some d ->
  address d = Some a ->
  (forall raw,
      convert_to_ecoforest_int value = Ok raw ->
      let write := mkRequest OP_TYPE_SET_REGISTER a 1 (Some (PStr raw, PStr raw)) in
      (forall reply w',
          _request (world s) write = (Ok reply, w') ->
          set_numeric_value _request name value s
          = get _request (mkSession w' (sent s ++ [write])))
      /\ (forall e w',
          _request (world s) write = (Raise e, w') ->
          set_numeric_value _request name value s
          = (Raise e, mkSession w' (sent s ++ [write]))))
  /\ (forall e,
      convert_to_ecoforest_int value = Raise e ->
      set_numeric_value _request name value s = (Raise e, s)).
Proof.
  intros Hd Ha.
  unfold set_numeric_value. rewrite (assoc_mapping_has name d Hd). cbn [negb].
  rewrite Hd. split.
  - intros raw Hraw. rewrite Hraw. cbn [of_option rbind].
    rewrite Ha. unfold item. cbn [of_option rbind].
    split; intros r w' Hreq; unfold bind at 1, lift; unfold bind at 1, send;
      rewrite Hreq; reflexivity.
  - intros e He. rewrite He. reflexivity.
Qed.

Lemma set_numeric_value_writes_then_polls_witness :
  max_ (number_field 40 0 65) = Some 65
  /\ convert_to_ecoforest_int 100 = Ok "03e8"
  /\ set_numeric_value zero_device "number_dhw_setpoint" 100 fresh
     = get zero_device
         (mkSession tt [mkRequest OP_TYPE_SET_REGISTER 40 1
                          (Some (PStr "03e8", PStr "03e8"))])
  /\ set_numeric_value zero_device "number_dhw_setpoint" nan fresh
     = (Raise ValueError, fresh).
Proof.
  split; [reflexivity |]. split; [vm_compute; reflexivity |].
  split.
  - pose proof (proj1 (set_numeric_value_writes_then_polls unit zero_device
                  "number_dhw_setpoint" (number_field 40 0 65) 40 100 fresh
                  eq_refl eq_refl) "03e8" ltac:(vm_compute; reflexivity)) as [Hok _].
    exact (Hok [] tt eq_refl).
  - exact (proj2 (set_numeric_value_writes_then_polls unit zero_device
                  "number_dhw_setpoint" (number_field 40 0 65) 40 nan fresh
                  eq_refl eq_refl) ValueError ltac:(vm_compute; reflexivity)).
Defined.

(* ===================================================================== *)
(** * What the snapshot holds *)
(* ===================================================================== *)

Section SnapshotFields.

Variable state : AddressSpace.

(** A field of wire type ["boolean"] is stored as the boolean its raw
    value decodes to. *)
Lemma decode_loop_boolean (table : list (string * definition)) :
  List.NoDup (map fst table) ->
  forall acc m name d,
    decode_loop state table acc = Ok m ->
    In (name, d) table -> type_ d = "boolean" ->
    exists a raw b,
      address d = Some a
      /\ space state (data_type d) !! a = Some raw
      /\ parse_ecoforest_bool raw = Ok b
      /\ m !! name = Some (VBool b).
Proof.
  induction table as [|[k d0] rest IH]; intros Hnd acc m name d Hm Hin Hty;
    [destruct Hin |].
  cbn [map fst] in Hnd. apply List.NoDup_cons_iff in Hnd as [Hk Hnd].
  cbn [decode_loop] in Hm. destruct Hin as [Heq | Hin].
  - injection Heq as -> ->. unfold decode_field in Hm. rewrite Hty in Hm.
    cbn [String.eqb Ascii.eqb Bool.eqb] in Hm. unfold item, raw_at in Hm.
    destruct (address d) as [a|] eqn:Ha;
      [cbn [of_option rbind] in Hm | discriminate Hm].
    destruct (space state (data_type d) !! a) as [raw|] eqn:Hraw;
      [cbn [of_option rbind] in Hm | discriminate Hm].
    destruct (parse_ecoforest_bool raw) as [b|e] eqn:Hb;
      [cbn [rbind] in Hm | discriminate Hm].
    exists a, raw, b. split; [reflexivity |]. split; [exact Hraw |].
    split; [exact Hb |].
    rewrite (decode_loop_other state rest name Hk _ _ Hm). apply lookup_insert_eq.
  - destruct (decode_field state d0) as [[v|]|e]; cbn [rbind] in Hm;
      [| | discriminate Hm]; exact (IH Hnd _ _ name d Hm Hin Hty).
Qed.

(** A field whose address was not read stops the first loop. *)
Lemma decode_loop_unread (table : list (string * definition)) :
  forall acc name d a,
    In (name, d) table ->
    type_ d = "int" \/ type_ d = "float" \/ type_ d = "boolean" ->
    address d = Some a ->
    space state (data_type d) !! a = None ->
    exists e, decode_loop state table acc = Raise e.
Proof.
  induction table as [|[k d0] rest IH]; intros acc name d a Hin Hty Ha Hraw;
    [destruct Hin |].
  cbn [decode_loop]. destruct Hin as [Heq | Hin].
  - injection Heq as -> ->. exists KeyError.
    unfold decode_field, item, raw_at. rewrite Ha. cbn [of_option rbind].
    rewrite Hraw.
    destruct Hty as [-> | [-> | ->]]; reflexivity.
  - destruct (decode_field state d0) as [[v|]|e]; cbn [rbind];
      [| | exists e; reflexivity]; exact (IH _ name d a Hin Hty Ha Hraw).
Qed.

(** One turn of the second loop touches the entry of its own name only. *)
Lemma derive_loop_step (k : string) (d0 : definition)
    (rest : list (string * definition)) (info m : gmap string value) :
  derive_loop state ((k, d0) :: rest) info = Ok m ->
  exists info',
    derive_loop state rest info' = Ok m
    /\ forall name, k <> name -> info' !! name = info !! name.
Proof.
  cbn [derive_loop]. intros Hm.
  destruct (String.eqb (entity_type d0) "temperature").
  - destruct (info !! k) as [v0|]; [cbn [of_option rbind] in Hm | discriminate Hm].
    assert (Hkeep : forall w name, k <> name ->
               (if value_eq_float v0 SENTINEL then <[k := w]> info else info) !! name
               = info !! name).
    { intros w name Hne. destruct (value_eq_float v0 SENTINEL); [| reflexivity].
      now apply lookup_insert_ne. }
    destruct (negb (String.eqb (type_ d0) "custom")).
    + eexists. split; [exact Hm |]. intros name Hne. now apply Hkeep.
    + destruct (item (value_fn d0)) as [f|e]; [cbn [rbind] in Hm | discriminate Hm].
      destruct (f _ state) as [w|e]; [cbn [rbind] in Hm | discriminate Hm].
      eexists. split; [exact Hm |]. intros name Hne.
      rewrite lookup_insert_ne by exact Hne. now apply Hkeep.
  - cbn [rbind] in Hm. destruct (negb (String.eqb (type_ d0) "custom")).
    + exists info. now split.
    + destruct (item (value_fn d0)) as [f|e]; [cbn [rbind] in Hm | discriminate Hm].
      destruct (f _ state) as [w|e]; [cbn [rbind] in Hm | discriminate Hm].
      eexists. split; [exact Hm |]. intros name Hne.
      now apply lookup_insert_ne.
Qed.

(** A field that is neither a temperature nor custom is left as the first
    loop stored it. *)
Lemma derive_loop_plain (table : list (string * definition)) :
  List.NoDup (map fst table) ->
  forall info m name d,
    derive_loop state table info = Ok m ->
    In (name, d) table ->
    entity_type d <> "temperature" -> type_ d <> "custom" ->
    m !! name = info !! name.
Proof.
  induction table as [|[k d0] rest IH]; intros Hnd info m name d Hm Hin Hent Hty;
    [destruct Hin |].
  cbn [map fst] in Hnd. apply List.NoDup_cons_iff in Hnd as [Hk Hnd].
  destruct Hin as [Heq | Hin].
  - injection Heq as -> ->. cbn [derive_loop] in Hm.
    destruct (String.eqb_spec (entity_type d) "temperature") as [E | _];
      [contradiction |].
    destruct (String.eqb_spec (type_ d) "custom") as [E | _]; [contradiction |].
    cbn [rbind negb] in Hm. exact (derive_loop_other state rest name Hk _ _ Hm).
  - assert (Hne : k <> name).
    { intros ->. apply Hk. apply (in_map fst) in Hin. exact Hin. }
    destruct (derive_loop_step _ _ _ _ _ Hm) as (info' & Hm' & Hsame).
    rewrite (IH Hnd _ _ name d Hm' Hin Hent Hty). now apply Hsame.
Qed.

(** A custom field that is no temperature holds what its [value_fn]
    returns. *)
Lemma derive_loop_custom (table : list (string * definition)) :
  List.NoDup (map fst table) ->
  forall info m name d f,
    derive_loop state table info = Ok m ->
    In (name, d) table ->
    entity_type d <> "temperature" -> type_ d = "custom" ->
    value_fn d = Some f ->
    exists info' v, f info' state = Ok v /\ m !! name = Some v.
Proof.
  induction table as [|[k d0] rest IH]; intros Hnd info m name d f Hm Hin Hent Hty Hf;
    [destruct Hin |].
  cbn [map fst] in Hnd. apply List.NoDup_cons_iff in Hnd as [Hk Hnd].
  destruct Hin as [Heq | Hin].
  - injection Heq as -> ->. cbn [derive_loop] in Hm.
    destruct (String.eqb_spec (entity_type d) "temperature") as [E | _];
      [contradiction |].
    rewrite Hty, Hf in Hm. cbn [rbind negb String.eqb Ascii.eqb Bool.eqb] in Hm.
    unfold item in Hm. cbn [of_option rbind] in Hm.
    destruct (f info state) as [v|e] eqn:Hv; [cbn [rbind] in Hm | discriminate Hm].
    exists info, v. split; [exact Hv |].
    rewrite (derive_loop_other state rest name Hk _ _ Hm). apply lookup_insert_eq.
  - destruct (derive_loop_step _ _ _ _ _ Hm) as (info' & Hm' & _).
    exact (IH Hnd _ _ name d f Hm' Hin Hent Hty Hf).
Qed.

(** A scan that returns 0 over addresses that are not 0 has found ["0"]
    at each of them. *)
Lemma alarm_loop_zero (l : list Z) :
  ~ In 0 l -> alarm_loop state l = Ok 0 ->
  forall b, In b l -> coils state !! b = Some "0".
Proof.
  induction l as [|a l IH]; intros H0 Hscan b Hb; [destruct Hb |].
  cbn [alarm_loop] in Hscan. unfold raw_at in Hscan. cbn [space] in Hscan.
  destruct (coils state !! a) as [raw|] eqn:Ha;
    [cbn [of_option rbind] in Hscan | discriminate Hscan].
  destruct (String.eqb_spec raw "0") as [-> | Hne].
  - destruct Hb as [<- | Hb]; [exact Ha |].
    apply IH; [| exact Hscan | exact Hb]. intros H. apply H0. now right.
  - injection Hscan as ->. exfalso. apply H0. now left.
Qed.

(** The scan returns 0 or an address of its list, and fails only on a
    coil that was not read. *)
Lemma alarm_loop_outcome (l : list Z) :
  (forall r, alarm_loop state l = Ok r -> r = 0 \/ In r l)
  /\ (forall e, alarm_loop state l = Raise e -> e = KeyError).
Proof.
  induction l as [|a l [IHok IHerr]].
  - split; [intros r H; injection H as <-; now left | intros e H; discriminate H].
  - cbn [alarm_loop]. unfold raw_at. cbn [space].
    destruct (coils state !! a) as [raw|]; cbn [of_option rbind].
    + destruct (String.eqb raw "0").
      * split; [intros r H; destruct (IHok r H); [now left | right; now right]
               | exact IHerr].
      * split; [intros r H; injection H as <-; right; now left
               | intros e H; discriminate H].
    + split; [intros r H; discriminate H | intros e H; now injection H as <-].
Qed.

End SnapshotFields.

Lemma parse_ecoforest_bool_zero : parse_ecoforest_bool "0" = Ok false.
Proof. reflexivity. Qed.

Lemma alarm_table_has_no_zero : ~ In 0 alarm_registers.
Proof. unfold alarm_registers. cbn [In]. lia. Qed.

Lemma mapping_booleans (name : string) (d : definition) :
  In (name, d) MAPPING -> type_ d = "boolean" ->
  data_type d = Coil /\ entity_type d <> "temperature".
Proof.
  intros Hin Hty. unfold MAPPING in Hin. cbn [In] in Hin.
  repeat (destruct Hin as [Hin | Hin];
          [injection Hin as <- <-;
           first [discriminate Hty | split; [reflexivity | discriminate]] |]).
  destruct Hin.
Qed.

(** The parts of a snapshot that succeeded. *)
Lemma snapshot_parts (state : AddressSpace) (device : EcoGeoDevice) :
  snapshot state = Ok device ->
  exists m,
    decode_loop state MAPPING ∅ = Ok m
    /\ derive_loop state MAPPING m = Ok (info device)
    /\ parse_model_name state = Ok (model_name device).
Proof.
  intros Hsnap. unfold snapshot in Hsnap.
  destruct (build_device_info state) as [device_info | e] eqn:Hinfo;
    [cbn [rbind] in Hsnap | discriminate Hsnap].
  destruct (parse_model_name state) as [model | e];
    [cbn [rbind] in Hsnap | discriminate Hsnap].
  injection Hsnap as <-. cbn [info model_name].
  unfold build_device_info in Hinfo.
  destruct (decode_loop state MAPPING ∅) as [m | e];
    [cbn [rbind] in Hinfo | discriminate Hinfo].
  exists m. now repeat split.
Qed.

(** X7.  In a snapshot that [get] returns, every boolean field holds
    the boolean decoded from its coil, and ["alarm"] holds the address
    that the alarm scan returns on the polled coils. *)
Theorem snapshot_booleans_and_alarm (state : AddressSpace) (device : EcoGeoDevice) :
  snapshot state = Ok device ->
  (forall name d,
      In (name, d) MAPPING -> type_ d = "boolean" ->
      exists a raw b,
        address d = Some a
        /\ coils state !! a = Some raw
        /\ parse_ecoforest_bool raw = Ok b
        /\ info device !! name = Some (VBool b))
  /\ (exists a, get_alarm state = Ok a
                /\ info device !! "alarm" = Some (VInt a)).
Proof.
  intros Hsnap. destruct (snapshot_parts state device Hsnap) as (m & H1 & H2 & _).
  split.
  - intros name d Hin Hty.
    destruct (mapping_booleans name d Hin Hty) as [Hdt Hent].
    destruct (decode_loop_boolean state MAPPING mapping_keys_nodup _ _ name d
                H1 Hin Hty) as (a & raw & b & Ha & Hraw & Hb & Hm).
    rewrite Hdt in Hraw. cbn [space] in Hraw.
    exists a, raw, b. repeat split; try assumption.
    rewrite (derive_loop_plain state MAPPING mapping_keys_nodup _ _ name d
               H2 Hin Hent); [exact Hm |].
    rewrite Hty. discriminate.
  - destruct (derive_loop_custom state MAPPING mapping_keys_nodup _ _ "alarm" _ _
                H2 ltac:(unfold MAPPING; cbn [In]; tauto)
                ltac:(discriminate) eq_refl eq_refl) as (info' & v & Hv & Hm).
    destruct (get_alarm state) as [a|e]; [| discriminate Hv].
    injection Hv as <-. exists a. now split.
Qed.

Lemma snapshot_booleans_and_alarm_witness :
  exists device,
    snapshot (zero_space []) = Ok device
    /\ info device !! "switch_dhw" = Some (VBool false)
    /\ info device !! "alarm" = Some (VInt 0).
Proof.
  destruct (snapshot (zero_space [])) as [device | e] eqn:H.
  - exists device. split; [reflexivity |].
    destruct (snapshot_booleans_and_alarm _ device H) as [Hbool (a & Ha & Halarm)].
    split.
    + destruct (Hbool "switch_dhw" (coil_field 213 "switch")
                  ltac:(unfold MAPPING; cbn [In]; tauto) eq_refl)
        as (a' & raw & b & Ha' & Hraw & Hb & Hinfo).
      injection Ha' as <-. vm_compute in Hraw. injection Hraw as <-.
      vm_compute in Hb. injection Hb as <-. exact Hinfo.
    + vm_compute in Ha. injection Ha as <-. exact Halarm.
  - exfalso. vm_compute in H. discriminate H.
Defined.

(** X8.  Coil 213 is both the coil of ["switch_dhw"] and an entry of the
    alarm table: a snapshot that shows the switch on shows an alarm that
    is not 0, an address of the alarm table. *)
Theorem switch_dhw_on_shows_an_alarm (state : AddressSpace) (device : EcoGeoDevice) :
  snapshot state = Ok device ->
  info device !! "switch_dhw" = Some (VBool true) ->
  exists a, info device !! "alarm" = Some (VInt a)
            /\ a <> 0 /\ In a alarm_registers.
Proof.
  intros Hsnap Hon. destruct (snapshot_parts state device Hsnap) as (m & H1 & H2 & _).
  destruct (decode_loop_boolean state MAPPING mapping_keys_nodup _ _
              "switch_dhw" (coil_field 213 "switch") H1
              ltac:(unfold MAPPING; cbn [In]; tauto) eq_refl)
    as (a213 & raw & b & Ha & Hraw & Hb & Hm).
  injection Ha as <-. cbn [coil_field data_type space] in Hraw.
  rewrite <- (derive_loop_plain state MAPPING mapping_keys_nodup _ _
                "switch_dhw" (coil_field 213 "switch") H2
                ltac:(unfold MAPPING; cbn [In]; tauto)
                ltac:(discriminate) ltac:(discriminate)) in Hm.
  rewrite Hon in Hm. injection Hm as <-.
  destruct (derive_loop_custom state MAPPING mapping_keys_nodup _ _ "alarm" _ _
              H2 ltac:(unfold MAPPING; cbn [In]; tauto)
              ltac:(discriminate) eq_refl eq_refl) as (info' & v & Hv & Halarm).
  destruct (get_alarm state) as [a|e] eqn:Hscan; [| discriminate Hv].
  injection Hv as <-. exists a. split; [exact Halarm |].
  assert (Hnz : a <> 0).
  { intros ->.
    pose proof (alarm_loop_zero state alarm_registers alarm_table_has_no_zero
                  Hscan 213 ltac:(unfold alarm_registers; cbn [In]; lia)) as H213.
    rewrite Hraw in H213. injection H213 as ->.
    rewrite parse_ecoforest_bool_zero in Hb. discriminate Hb. }
  split; [exact Hnz |].
  destruct (proj1 (alarm_loop_outcome state alarm_registers) a Hscan);
    [contradiction | assumption].
Qed.

Lemma switch_dhw_on_shows_an_alarm_witness :
  exists device,
    snapshot (mkSpace (<[213 := "1"]> (coils (zero_space []))) (registers (zero_space [])))
    = Ok device
    /\ info device !! "switch_dhw" = Some (VBool true)
    /\ exists a, info device !! "alarm" = Some (VInt a) /\ a <> 0.
Proof.
  destruct (snapshot (mkSpace (<[213 := "1"]> (coils (zero_space [])))
                              (registers (zero_space []))))
    as [device | e] eqn:H.
  - exists device. split; [reflexivity |].
    assert (Hon : info device !! "switch_dhw" = Some (VBool true)).
    { vm_compute in H. injection H as <-. vm_compute. reflexivity. }
    split; [exact Hon |].
    destruct (switch_dhw_on_shows_an_alarm _ device H Hon) as (a & Ha & Hnz & _).
    exists a. now split.
  - exfalso. vm_compute in H. discriminate H.
Defined.

(** X9.  The keys of a snapshot that [get] returns are the keys of
    [MAPPING], all seven and no other. *)
Theorem snapshot_has_the_mapped_names (state : AddressSpace) (device : EcoGeoDevice) :
  snapshot state = Ok device ->
  forall name, is_Some (info device !! name) <-> In name (map fst MAPPING).
Proof.
  intros Hsnap name.
  destruct (snapshot_parts state device Hsnap) as (m & H1 & H2 & _).
  split.
  - intros Hsome. destruct (in_dec string_dec name (map fst MAPPING)) as [Hin | Hout];
      [exact Hin |].
    rewrite (derive_loop_other state MAPPING name Hout _ _ H2) in Hsome.
    rewrite (decode_loop_other state MAPPING name Hout _ _ H1) in Hsome.
    rewrite lookup_empty in Hsome. now destruct Hsome.
  - intros Hin. apply in_map_iff in Hin as ([k d] & <- & Hin). cbn [fst].
    destruct (String.eqb_spec (type_ d) "custom") as [Hc | Hc].
    + assert (Hd : entity_type d <> "temperature" /\ exists f, value_fn d = Some f).
      { unfold MAPPING in Hin. cbn [In] in Hin.
        repeat (destruct Hin as [Hin | Hin];
                [injection Hin as <- <-;
                 first [discriminate Hc
                       | split; [discriminate | eexists; reflexivity]] |]).
        destruct Hin. }
      destruct Hd as [Hent [f Hf]].
      destruct (derive_loop_custom state MAPPING mapping_keys_nodup _ _ k d f
                  H2 Hin Hent Hc Hf) as (info' & v & _ & Hm).
      rewrite Hm. eauto.
    + destruct (String.eqb_spec (entity_type d) "temperature") as [Ht | Ht].
      * destruct (derive_loop_temperature state MAPPING mapping_keys_nodup _ _ k d
                    H2 Hin Ht Hc) as (v & _ & Hm).
        rewrite Hm. eauto.
      * assert (Hb : type_ d = "boolean").
        { unfold MAPPING in Hin. cbn [In] in Hin.
          repeat (destruct Hin as [Hin | Hin];
                  [injection Hin as <- <-;
                   first [reflexivity | exfalso; apply Ht; reflexivity
                         | exfalso; apply Hc; reflexivity] |]).
          destruct Hin. }
        destruct (decode_loop_boolean state MAPPING mapping_keys_nodup _ _ k d
                    H1 Hin Hb) as (a & raw & b & _ & _ & _ & Hm).
        rewrite (derive_loop_plain state MAPPING mapping_keys_nodup _ _ k d
                   H2 Hin Ht Hc), Hm. eauto.
Qed.

Lemma snapshot_has_the_mapped_names_witness :
  exists device,
    snapshot (zero_space []) = Ok device
    /\ is_Some (info device !! "number_dhw_dt_start")
    /\ ~ is_Some (info device !! "model").
Proof.
  destruct (snapshot (zero_space [])) as [device | e] eqn:H.
  - exists device. split; [reflexivity |].
    pose proof (snapshot_has_the_mapped_names _ device H) as Hkeys.
    split.
    + apply Hkeys. cbn. tauto.
    + intros Hs. apply Hkeys in Hs. cbn in Hs.
      repeat (destruct Hs as [Hs | Hs]; [discriminate Hs |]). exact Hs.
  - exfalso. vm_compute in H. discriminate H.
Defined.

(** X10.  A snapshot needs every mapped address: when the register or
    coil of a field of [MAPPING] was not read, building the snapshot
    raises, and nothing is returned. *)
Theorem snapshot_needs_every_mapped_address
    (state : AddressSpace) (name : string) (d : definition) (a : Z) :
  In (name, d) MAPPING ->
  address d = Some a ->
  space state (data_type d) !! a = None ->
  exists e, snapshot state = Raise e.
Proof.
  intros Hin Ha Hraw.
  assert (Hty : type_ d = "int" \/ type_ d = "float" \/ type_ d = "boolean").
  { unfold MAPPING in Hin. cbn [In] in Hin.
    repeat (destruct Hin as [Hin | Hin];
            [injection Hin as <- <-; first [discriminate Ha | tauto] |]).
    destruct Hin. }
  destruct (decode_loop_unread state MAPPING ∅ name d a Hin Hty Ha Hraw) as [e He].
  exists e. unfold snapshot, build_device_info. rewrite He. reflexivity.
Qed.

Lemma snapshot_needs_every_mapped_address_witness :
  exists e, snapshot (mkSpace ∅ ∅) = Raise e.
Proof.
  exact (snapshot_needs_every_mapped_address (mkSpace ∅ ∅) "switch_dhw"
           (coil_field 213 "switch") 213
           ltac:(unfold MAPPING; cbn [In]; tauto) eq_refl eq_refl).
Defined.

(** X11.  The alarm scan returns 0 or an address of the alarm table;
    it raises on a coil that was not read, when every coil before it in
    the table reads ["0"], and then the exception is [KeyError]; it raises
    nothing else.  An active coil hides what comes after it, read or not. *)
Theorem get_alarm_outcomes (data : AddressSpace) :
  (forall r, get_alarm data = Ok r -> r = 0 \/ In r alarm_registers)
  /\ (forall e, get_alarm data = Raise e -> e = KeyError)
  /\ (forall pre a post,
        alarm_registers = (pre ++ a :: post)%list ->
        (forall b, In b pre -> coils data !! b = Some "0") ->
        coils data !! a = None ->
        get_alarm data = Raise KeyError).
Proof.
  split; [exact (proj1 (alarm_loop_outcome data alarm_registers)) |].
  split; [exact (proj2 (alarm_loop_outcome data alarm_registers)) |].
  intros pre a post Hsplit Hpre Ha. unfold get_alarm. rewrite Hsplit.
  rewrite alarm_loop_skip by exact Hpre.
  cbn [alarm_loop]. unfold raw_at. cbn [space]. rewrite Ha. reflexivity.
Qed.

(* ===================================================================== *)
(** * The reply parser *)
(* ===================================================================== *)

Lemma has_char_append (c : ascii) (s t : string) :
  has_char c (String.append s t) = has_char c s || has_char c t.
Proof.
  induction s as [|c' s IH]; [reflexivity |].
  rewrite append_cons. cbn [has_char]. rewrite IH. apply orb_assoc.
Qed.

(** A split yields at least one piece. *)
Lemma str_split_pieces (sep : ascii) (s : string) :
  exists piece pieces, str_split sep s = piece :: pieces.
Proof.
  induction s as [|c s (piece & pieces & IH)]; [now exists "", [] |].
  cbn [str_split]. rewrite IH. destruct (Ascii.eqb c sep); eauto.
Qed.

Lemma str_split_whole (sep : ascii) (s : string) :
  has_char sep s = false -> str_split sep s = [s].
Proof.
  induction s as [|c s IH]; intros H; [reflexivity |].
  cbn [has_char] in H. apply orb_false_elim in H as [Hc Hs].
  cbn [str_split]. rewrite Hc, (IH Hs). reflexivity.
Qed.

Lemma str_split_at (sep : ascii) (s t : string) :
  has_char sep s = false ->
  str_split sep (String.append s (String sep t)) = s :: str_split sep t.
Proof.
  induction s as [|c s IH]; intros H.
  - change (String.append "" (String sep t)) with (String sep t).
    cbn [str_split]. rewrite Ascii.eqb_refl. reflexivity.
  - cbn [has_char] in H. apply orb_false_elim in H as [Hc Hs].
    rewrite append_cons. cbn [str_split]. rewrite Hc, (IH Hs). reflexivity.
Qed.

(** Splitting undoes joining, for pieces that are free of the separator. *)
Lemma str_split_join (sep : ascii) (l : list string) :
  l <> [] ->
  Forall (fun x => has_char sep x = false) l ->
  str_split sep (join sep l) = l.
Proof.
  induction l as [|x l IH]; intros Hne Hall; [contradiction |].
  apply Forall_cons_1 in Hall as [Hx Hl].
  destruct l as [|y l].
  - cbn [join]. now apply str_split_whole.
  - change (join sep (x :: y :: l))
      with (String.append x (String sep (join sep (y :: l)))).
    rewrite str_split_at by exact Hx. rewrite IH; [reflexivity | discriminate | exact Hl].
Qed.

Lemma join_has_char (c sep : ascii) (l : list string) :
  Ascii.eqb sep c = false ->
  Forall (fun x => has_char c x = false) l ->
  has_char c (join sep l) = false.
Proof.
  intros Hsep. induction l as [|x l IH]; intros Hall; [reflexivity |].
  apply Forall_cons_1 in Hall as [Hx Hl].
  destruct l as [|y l]; [exact Hx |].
  change (join sep (x :: y :: l))
    with (String.append x (String sep (join sep (y :: l)))).
  rewrite has_char_append. cbn [has_char]. rewrite Hx, Hsep, (IH Hl). reflexivity.
Qed.

Lemma list_item_first {A} (x : A) (l : list A) : list_item (x :: l) 0 = Ok x.
Proof.
  unfold list_item. cbn [List.length].
  destruct (Z.leb_spec 0 0); [| lia].
  destruct (Z.ltb_spec 0 (Z.of_nat (S (List.length l)))); [reflexivity | lia].
Qed.

Lemma list_item_second {A} (x y : A) (l : list A) :
  list_item (x :: y :: l) 1 = Ok y.
Proof.
  unfold list_item. cbn [List.length].
  destruct (Z.leb_spec 0 1); [| lia].
  destruct (Z.ltb_spec 1 (Z.of_nat (S (S (List.length l))))); [reflexivity | lia].
Qed.

(** The lines of a response whose first line is [head]: [head] comes
    first, whatever follows. *)
Lemma lines_of_head (head tail : string) :
  has_char newline head = false ->
  further_lines tail ->
  exists rest, str_split newline (String.append head tail) = head :: rest
               /\ (tail = EmptyString -> rest = []).
Proof.
  intros Hhead [-> | [text ->]].
  - rewrite append_nil_r. exists []. split; [now apply str_split_whole | reflexivity].
  - rewrite str_split_at by exact Hhead. eexists. split; [reflexivity |].
    intros H. discriminate H.
Qed.

Lemma status_names_plain (status : string) :
  In status status_names ->
  has_char newline status = false /\ has_char "=" status = false
  /\ existsb (String.eqb status) status_names = true.
Proof.
  unfold status_names. cbn [In].
  intros [<- | [<- | [<- | [<- | []]]]]; repeat split; reflexivity.
Qed.

Lemma existsb_status (a : string) :
  existsb (String.eqb a) status_names = true <-> In a status_names.
Proof.
  rewrite existsb_exists. split.
  - intros (x & Hx & E). apply String.eqb_eq in E. now subst.
  - intros H. exists a. split; [exact H | apply String.eqb_refl].
Qed.

(** X12.  On a reply whose first line is one of the four status names,
    [=] and [0], and whose second line joins fields with [&], [_parse]
    returns the fields after the first two, in order (none when there are
    at most two); lines after the second are ignored. *)
Theorem _parse_returns_the_fields
    (status : string) (fields : list string) (tail : string) :
  In status status_names ->
  fields <> [] ->
  Forall (fun x => has_char "&" x = false /\ has_char newline x = false) fields ->
  further_lines tail ->
  _parse (String.append (String.append status "=0")
            (String newline (String.append (join "&" fields) tail)))
  = Ok (drop 2 fields).
Proof.
  intros Hstatus Hne Hfields Htail.
  destruct (status_names_plain status Hstatus) as (Hnl & Heq & Hin).
  assert (Hbody : has_char newline (join "&" fields) = false).
  { apply join_has_char; [reflexivity |].
    eapply List.Forall_impl; [| exact Hfields]. intros x [_ H]. exact H. }
  assert (Hamp : Forall (fun x => has_char "&" x = false) fields).
  { eapply List.Forall_impl; [| exact Hfields]. intros x [H _]. exact H. }
  destruct (lines_of_head (join "&" fields) tail Hbody Htail) as (rest & Hrest & _).
  unfold _parse.
  rewrite str_split_at.
  2:{ rewrite has_char_append, Hnl. reflexivity. }
  rewrite Hrest, list_item_first. cbn [rbind].
  change (String.append status "=0") with (String.append status (String "=" "0")).
  rewrite str_split_at by exact Heq.
  change (str_split "=" "0") with ["0"]. cbn [unpack2 rbind fst snd].
  rewrite Hin. cbn [negb orb String.eqb Ascii.eqb Bool.eqb].
  rewrite list_item_second. cbn [rbind].
  rewrite str_split_join by assumption. reflexivity.
Qed.

Lemma _parse_returns_the_fields_witness :
  _parse (String.append "error_geo_get_reg=0"
            (String newline "dir=11&num=2&00d7&0102"))
  = Ok ["00d7"; "0102"]
  /\ _parse (String.append "error_geo_set_bit=0" (String newline "dir=213&num=1"))
     = Ok [].
Proof.
  split.
  - refine (_parse_returns_the_fields "error_geo_get_reg"
              ["dir=11"; "num=2"; "00d7"; "0102"] "" _ _ _ _).
    + unfold status_names. cbn [In]. tauto.
    + discriminate.
    + repeat constructor.
    + left. reflexivity.
  - refine (_parse_returns_the_fields "error_geo_set_bit"
              ["dir=213"; "num=1"] "" _ _ _ _).
    + unfold status_names. cbn [In]. tauto.
    + discriminate.
    + repeat constructor.
    + left. reflexivity.
Defined.

(** X13.  A reply whose first line is [a=b] with [a] none of the four
    status names, or with [b] other than ["0"], makes [_parse] raise the
    bad-response exception, whose message carries the whole reply. *)
Theorem _parse_rejects_bad_status (a b tail : string) :
  has_char "=" a = false -> has_char newline a = false ->
  has_char "=" b = false -> has_char newline b = false ->
  further_lines tail ->
  ~ In a status_names \/ b <> "0" ->
  let response := String.append (String.append a (String "=" b)) tail in
  _parse response = Raise (Exception (String.append "bad response: " response)).
Proof.
  intros Ha_eq Ha_nl Hb_eq Hb_nl Htail Hbad response.
  assert (Hhead : has_char newline (String.append a (String "=" b)) = false).
  { rewrite has_char_append. cbn [has_char]. rewrite Ha_nl, Hb_nl. reflexivity. }
  destruct (lines_of_head _ tail Hhead Htail) as (rest & Hrest & _).
  unfold _parse. fold response. unfold response at 1.
  rewrite Hrest, list_item_first. cbn [rbind].
  rewrite str_split_at by exact Ha_eq.
  rewrite str_split_whole by exact Hb_eq. cbn [unpack2 rbind fst snd].
  destruct Hbad as [Hout | Hb].
  - destruct (existsb (String.eqb a) status_names) eqn:E.
    + apply existsb_status in E. contradiction.
    + reflexivity.
  - destruct (String.eqb_spec b "0") as [-> | _]; [contradiction |].
    cbn [negb]. rewrite orb_true_r. reflexivity.
Qed.

Lemma _parse_rejects_bad_status_witness :
  _parse "error_geo_get_reg=1"
  = Raise (Exception "bad response: error_geo_get_reg=1").
Proof.
  refine (_parse_rejects_bad_status "error_geo_get_reg" "1" "" _ _ _ _ _ _).
  - reflexivity.
  - reflexivity.
  - reflexivity.
  - reflexivity.
  - left. reflexivity.
  - right. discriminate.
Defined.

(** X14.  Replies that [_parse] cannot take apart: a first line without
    [=] raises [ValueError] at the unpacking, and so does one with two;
    a good status line that no second line follows raises [IndexError]. *)
Theorem _parse_malformed_reply (line tail : string) :
  has_char newline line = false ->
  further_lines tail ->
  (has_char "=" line = false ->
   _parse (String.append line tail) = Raise ValueError)
  /\ (forall a b c,
        line = String.append a (String "=" (String.append b (String "=" c))) ->
        has_char "=" a = false -> has_char "=" b = false ->
        _parse (String.append line tail) = Raise ValueError)
  /\ (forall status,
        In status status_names -> line = String.append status "=0" ->
        tail = EmptyString ->
        _parse (String.append line tail) = Raise IndexError).
Proof.
  intros Hnl Htail.
  destruct (lines_of_head line tail Hnl Htail) as (rest & Hrest & Hlast).
  unfold _parse. rewrite Hrest, list_item_first. cbn [rbind].
  split; [| split].
  - intros Heq. rewrite str_split_whole by exact Heq. reflexivity.
  - intros a b c -> Ha Hb. rewrite str_split_at by exact Ha.
    rewrite str_split_at by exact Hb.
    destruct (str_split_pieces "=" c) as (c0 & cs & ->). reflexivity.
  - intros status Hstatus -> ->.
    destruct (status_names_plain status Hstatus) as (_ & Heq & Hin).
    change (String.append status "=0") with (String.append status (String "=" "0")).
    rewrite str_split_at by exact Heq.
    change (str_split "=" "0") with ["0"]. cbn [unpack2 rbind fst snd].
    rewrite Hin. cbn [negb orb String.eqb Ascii.eqb Bool.eqb].
    rewrite (Hlast eq_refl). reflexivity.
Qed.

Lemma _parse_malformed_reply_witness :
  _parse "timeout" = Raise ValueError
  /\ _parse "error_geo_get_reg=0" = Raise IndexError.
Proof.
  split.
  - exact (proj1 (_parse_malformed_reply "timeout" "" eq_refl (or_introl eq_refl))
                 eq_refl).
  - exact (proj2 (proj2 (_parse_malformed_reply "error_geo_get_reg=0" ""
                           eq_refl (or_introl eq_refl)))
                 "error_geo_get_reg" ltac:(unfold status_names; cbn [In]; tauto)
                 eq_refl eq_refl).
Defined.

(* ===================================================================== *)
(** * The codec, both ways round *)
(* ===================================================================== *)

Lemma hex_digit_hex_char (d : Z) :
  0 <= d < 16 -> hex_digit (hex_char d) = Some d.
Proof.
  intros Hd.
  assert (C : d = 0 \/ d = 1 \/ d = 2 \/ d = 3 \/ d = 4 \/ d = 5 \/ d = 6 \/ d = 7
              \/ d = 8 \/ d = 9 \/ d = 10 \/ d = 11 \/ d = 12 \/ d = 13 \/ d = 14
              \/ d = 15) by lia.
  repeat (destruct C as [-> | C]; [reflexivity |]). subst d. reflexivity.
Qed.

Lemma lower_hex_is_hex_char (c : ascii) :
  is_lower_hex c = true -> exists d, 0 <= d < 16 /\ c = hex_char d.
Proof.
  intros H.
  destruct (hex_digit c) as [d|] eqn:Hd.
  - exists d. destruct (hex_digit_facts c d Hd) as (_ & Hr & _).
    split; [exact Hr |].
    revert H Hd. destruct c as [[] [] [] [] [] [] [] []]; vm_compute;
      intros H Hd; try discriminate H; injection Hd as <-; reflexivity.
  - exfalso. revert H Hd.
    destruct c as [[] [] [] [] [] [] [] []]; vm_compute; intros H Hd;
      first [discriminate H | discriminate Hd].
Qed.

Lemma unsigned16_digits (n : Z) :
  0 <= n < 65536 ->
  unsigned16 (n / 4096 mod 16) (n / 256 mod 16) (n / 16 mod 16) (n mod 16) = n.
Proof. intros Hn. unfold unsigned16. Z.div_mod_to_equations. lia. Qed.

Lemma hex4_of_digits (d3 d2 d1 d0 : Z) :
  0 <= d3 < 16 -> 0 <= d2 < 16 -> 0 <= d1 < 16 -> 0 <= d0 < 16 ->
  hex4 (unsigned16 d3 d2 d1 d0)
  = str4 (hex_char d3) (hex_char d2) (hex_char d1) (hex_char d0)
  /\ 0 <= unsigned16 d3 d2 d1 d0 < 65536.
Proof.
  intros H3 H2 H1 H0. unfold hex4, unsigned16.
  replace ((4096 * d3 + 256 * d2 + 16 * d1 + d0) / 4096 mod 16) with d3
    by (Z.div_mod_to_equations; lia).
  replace ((4096 * d3 + 256 * d2 + 16 * d1 + d0) / 256 mod 16) with d2
    by (Z.div_mod_to_equations; lia).
  replace ((4096 * d3 + 256 * d2 + 16 * d1 + d0) / 16 mod 16) with d1
    by (Z.div_mod_to_equations; lia).
  replace ((4096 * d3 + 256 * d2 + 16 * d1 + d0) mod 16) with d0
    by (Z.div_mod_to_equations; lia).
  split; [reflexivity | lia].
Qed.

(** Decoding four lowercase hex digits. *)
Lemma parse_ecoforest_int_of_hex4 (n : Z) :
  0 <= n < 65536 -> parse_ecoforest_int (hex4 n) = Ok (signed16 n).
Proof.
  intros Hn. unfold parse_ecoforest_int, hex4.
  rewrite (int_of_str_hex4 _ _ _ _ (n / 4096 mod 16) (n / 256 mod 16)
             (n / 16 mod 16) (n mod 16));
    try (apply hex_digit_hex_char; apply Z.mod_pos_bound; lia).
  rewrite unsigned16_digits by exact Hn. reflexivity.
Qed.

(** X15.  Decoding what the encoder returns gives the truncated tenfold
    value back only modulo 65536: when ten times the value truncates to
    [t >= -65536], the decoder reads the encoded string as the number
    congruent to [t] modulo 65536 that lies in [-32767, 32768].  So a [t]
    in that interval comes back as it is, and a [t] outside comes back as
    another number, off by a multiple of 65536, without an error. *)
Theorem decode_after_encode_is_modular (value : float) (t : Z) :
  int_of_float (value * 10) = Ok t ->
  -65536 <= t ->
  exists raw,
    convert_to_ecoforest_int value = Ok raw
    /\ parse_ecoforest_int raw = Ok (signed16 (t mod 65536))
    /\ -32767 <= signed16 (t mod 65536) <= 32768
    /\ (signed16 (t mod 65536) - t) mod 65536 = 0
    /\ (-32767 <= t <= 32768 -> parse_ecoforest_int raw = Ok t)
    /\ (t < -32767 \/ 32768 < t ->
        exists r, parse_ecoforest_int raw = Ok r /\ r <> t
                  /\ exists k, k <> 0 /\ r = t + k * 65536).
Proof.
  intros Ht Hlow.
  assert (Hm : 0 <= t mod 65536 < 65536) by (apply Z.mod_pos_bound; lia).
  assert (Hs : parse_ecoforest_int (hex4 (t mod 65536)) = Ok (signed16 (t mod 65536)))
    by (apply parse_ecoforest_int_of_hex4; exact Hm).
  exists (hex4 (t mod 65536)). split.
  { unfold convert_to_ecoforest_int. rewrite Ht. cbn [rbind].
    rewrite padded_hex_low4 by (destruct (Z.ltb_spec t 0); lia).
    do 2 f_equal. destruct (Z.ltb_spec t 0); [| reflexivity].
    rewrite <- (Z.mod_add t 1 65536) by lia. f_equal; lia. }
  split; [exact Hs |].
  unfold signed16 in *.
  destruct (Z.leb_spec (t mod 65536) 32768).
  - split; [lia |]. split.
    { rewrite Zminus_mod, Z.mod_mod, Z.sub_diag by lia. reflexivity. }
    split.
    { intros Hr. rewrite Hs. f_equal. Z.div_mod_to_equations. lia. }
    intros Hout. exists (t mod 65536). split; [exact Hs |].
    split; [lia |]. exists (- (t / 65536)).
    pose proof (Z.div_mod t 65536 ltac:(lia)) as Hdm.
    split; [| lia]. intros Hk.
    assert (t / 65536 = 0) by lia. lia.
  - split; [lia |]. split.
    { replace (t mod 65536 - 65536 - t) with (t mod 65536 - t + (-1) * 65536) by lia.
      rewrite Z.mod_add by lia.
      rewrite Zminus_mod, Z.mod_mod, Z.sub_diag by lia. reflexivity. }
    split.
    { intros Hr. rewrite Hs. f_equal. Z.div_mod_to_equations. lia. }
    intros Hout. exists (t mod 65536 - 65536). split; [exact Hs |].
    split; [lia |]. exists (- (t / 65536) - 1).
    pose proof (Z.div_mod t 65536 ltac:(lia)) as Hdm.
    split; [| lia]. intros Hk.
    assert (t / 65536 = -1) by lia. lia.
Qed.

Lemma decode_after_encode_is_modular_witness :
  int_of_float (-4000 * 10) = Ok (-40000)
  /\ (exists raw,
        convert_to_ecoforest_int (-4000) = Ok raw
        /\ parse_ecoforest_int raw = Ok 25536)
  /\ int_of_float (20000 * 10) = Ok 200000
  /\ (exists raw,
        convert_to_ecoforest_int 20000 = Ok raw
        /\ parse_ecoforest_int raw = Ok 3392).
Proof.
  split; [vm_compute; reflexivity |]. split.
  { destruct (decode_after_encode_is_modular (-4000) (-40000) eq_refl ltac:(lia))
      as (raw & Hraw & Hparse & _).
    exists raw. split; [exact Hraw | exact Hparse]. }
  split; [vm_compute; reflexivity |].
  destruct (decode_after_encode_is_modular 20000 200000 eq_refl ltac:(lia))
    as (raw & Hraw & Hparse & _).
  exists raw. split; [exact Hraw | exact Hparse].
Defined.

Lemma reencodes_block_sound (k : nat) :
  forall lo n, reencodes_block k lo = true ->
    lo <= n < lo + 2 ^ Z.of_nat k -> reencodes n = true.
Proof.
  induction k as [|k IH]; intros lo n Hb Hn.
  - cbn in Hn. cbn in Hb. replace n with lo by lia. exact Hb.
  - cbn [reencodes_block] in Hb. apply andb_prop in Hb as [Hl Hr].
    assert (E : 2 ^ Z.of_nat (S k) = 2 * 2 ^ Z.of_nat k).
    { rewrite Nat2Z.inj_succ, Z.pow_succ_r by lia. reflexivity. }
    assert (0 < 2 ^ Z.of_nat k) by (apply Z.pow_pos_nonneg; lia).
    destruct (Z_lt_dec n (lo + 2 ^ Z.of_nat k)).
    + apply (IH lo); [exact Hl | lia].
    + apply (IH (lo + 2 ^ Z.of_nat k)); [exact Hr | lia].
Qed.

Lemma reencodes_all : reencodes_block 16 0 = true.
Proof. vm_compute. reflexivity. Qed.

Lemma reencode_hex4 (n : Z) : 0 <= n < 65536 -> reencode (hex4 n) = Ok (hex4 n).
Proof.
  intros Hn.
  pose proof (reencodes_block_sound 16 0 n reencodes_all) as H.
  change (2 ^ Z.of_nat 16) with 65536 in H. specialize (H ltac:(lia)).
  unfold reencodes in H. destruct (reencode (hex4 n)) as [s|e]; [| discriminate H].
  apply String.eqb_eq in H. now subst.
Qed.

(** X16.  Encoding what the decoder returns gives the raw value back:
    for every raw value of four lowercase hex digits, the float that
    [parse_ecoforest_float] reads is encoded by [convert_to_ecoforest_int]
    as that same string; hence two such raw values never decode to the
    same float. *)
Theorem encode_after_decode_is_identity (c3 c2 c1 c0 : ascii) :
  is_lower_hex c3 = true -> is_lower_hex c2 = true ->
  is_lower_hex c1 = true -> is_lower_hex c0 = true ->
  let raw := str4 c3 c2 c1 c0 in
  (exists x, parse_ecoforest_float raw = Ok x
             /\ convert_to_ecoforest_int x = Ok raw)
  /\ (forall b3 b2 b1 b0,
        is_lower_hex b3 = true -> is_lower_hex b2 = true ->
        is_lower_hex b1 = true -> is_lower_hex b0 = true ->
        parse_ecoforest_float (str4 b3 b2 b1 b0) = parse_ecoforest_float raw ->
        str4 b3 b2 b1 b0 = raw).
Proof.
  assert (Hall : forall a3 a2 a1 a0,
             is_lower_hex a3 = true -> is_lower_hex a2 = true ->
             is_lower_hex a1 = true -> is_lower_hex a0 = true ->
             reencode (str4 a3 a2 a1 a0) = Ok (str4 a3 a2 a1 a0)).
  { intros a3 a2 a1 a0 H3 H2 H1 H0.
    destruct (lower_hex_is_hex_char a3 H3) as (d3 & R3 & ->).
    destruct (lower_hex_is_hex_char a2 H2) as (d2 & R2 & ->).
    destruct (lower_hex_is_hex_char a1 H1) as (d1 & R1 & ->).
    destruct (lower_hex_is_hex_char a0 H0) as (d0 & R0 & ->).
    destruct (hex4_of_digits d3 d2 d1 d0 R3 R2 R1 R0) as [<- Hn].
    exact (reencode_hex4 _ Hn). }
  intros H3 H2 H1 H0 raw.
  pose proof (Hall c3 c2 c1 c0 H3 H2 H1 H0) as Hraw. fold raw in Hraw.
  split.
  - unfold reencode in Hraw.
    destruct (parse_ecoforest_float raw) as [x|e]; [| discriminate Hraw].
    exists x. split; [reflexivity | exact Hraw].
  - intros b3 b2 b1 b0 G3 G2 G1 G0 Hsame.
    pose proof (Hall b3 b2 b1 b0 G3 G2 G1 G0) as Hb.
    unfold reencode in Hb, Hraw. rewrite Hsame in Hb. rewrite Hraw in Hb.
    congruence.
Qed.

Lemma encode_after_decode_is_identity_witness :
  exists x, parse_ecoforest_float "d8f1" = Ok x
            /\ convert_to_ecoforest_int x = Ok "d8f1".
Proof.
  exact (proj1 (encode_after_decode_is_identity "d" "8" "f" "1"
                  eq_refl eq_refl eq_refl eq_refl)).
Defined.

(* ===================================================================== *)
(** * What can go wrong after a poll *)
(* ===================================================================== *)

Lemma int_of_str_raises (base : Z) (s : string) (e : exn) :
  int_of_str base s = Raise e -> e = ValueError.
Proof.
  unfold int_of_str.
  destruct (split_sign (lstrip s)) as [neg s1].
  destruct (strip_prefix base s1) as [|c s2]; [intros H; now injection H as <- |].
  destruct (Ascii.eqb c "_"); [intros H; now injection H as <- |].
  destruct (scan_digits base (String c s2) false 0 0) as [[[[v n] prev] rest]|];
    [| intros H; now injection H as <-].
  repeat match goal with
         | |- context [if ?b then _ else _] => destruct b
         end; intros H; first [discriminate H | now injection H as <-].
Qed.

Lemma parse_ecoforest_int_raises (raw : string) (e : exn) :
  parse_ecoforest_int raw = Raise e -> e = ValueError.
Proof.
  unfold parse_ecoforest_int.
  destruct (int_of_str 16 raw) as [n|e'] eqn:E; cbn [rbind]; intros H;
    [discriminate H |].
  injection H as <-. exact (int_of_str_raises 16 raw e' E).
Qed.

Lemma parse_ecoforest_bool_raises (raw : string) (e : exn) :
  parse_ecoforest_bool raw = Raise e -> e = ValueError.
Proof.
  unfold parse_ecoforest_bool.
  destruct (int_of_str 10 raw) as [n|e'] eqn:E; cbn [rbind]; intros H;
    [discriminate H |].
  injection H as <-. exact (int_of_str_raises 10 raw e' E).
Qed.

Lemma int_truediv_ten_raises (n : Z) (e : exn) :
  int_truediv n 10 = Raise e -> e = OverflowError.
Proof.
  unfold int_truediv. destruct n as [|p|p]; [intros H; discriminate H | |];
    (destruct (fits_mantissa _ && fits_mantissa 10); [intros H; discriminate H |];
     destruct (SFdiv _ _ _ _); intros H;
     first [discriminate H | now injection H as <-]).
Qed.

Lemma parse_ecoforest_float_raises (raw : string) (e : exn) :
  parse_ecoforest_float raw = Raise e -> e = ValueError \/ e = OverflowError.
Proof.
  unfold parse_ecoforest_float.
  destruct (parse_ecoforest_int raw) as [n|e'] eqn:E; cbn [rbind]; intros H.
  - right. exact (int_truediv_ten_raises n e H).
  - injection H as <-. left. exact (parse_ecoforest_int_raises raw e' E).
Qed.

Lemma list_item_raises {A} (l : list A) (i : Z) (e : exn) :
  list_item l i = Raise e -> e = IndexError.
Proof.
  unfold list_item.
  repeat match goal with
         | |- context [if ?b then _ else _] => destruct b
         end;
    try (match goal with |- context [of_option _ ?o] => destruct o end);
    cbn [of_option]; intros H; first [discriminate H | now injection H as <-].
Qed.

Section AfterPoll.

Variable state : AddressSpace.

Lemma decode_field_raises (d : definition) (e : exn) :
  (type_ d = "int" \/ type_ d = "float" \/ type_ d = "boolean" ->
   exists a, address d = Some a /\ is_Some (space state (data_type d) !! a)) ->
  decode_field state d = Raise e ->
  e = ValueError \/ e = OverflowError.
Proof.
  intros Hread. unfold decode_field, item, raw_at.
  destruct (String.eqb_spec (type_ d) "int") as [Ti | _].
  { destruct (Hread (or_introl Ti)) as (a & Ha & [raw Hraw]).
    rewrite Ha. cbn [of_option rbind]. rewrite Hraw. cbn [of_option rbind].
    destruct (parse_ecoforest_int raw) as [v|e'] eqn:E; cbn [rbind]; intros H;
      [discriminate H |].
    injection H as <-. left. exact (parse_ecoforest_int_raises raw e' E). }
  destruct (String.eqb_spec (type_ d) "float") as [Tf | _].
  { destruct (Hread (or_intror (or_introl Tf))) as (a & Ha & [raw Hraw]).
    rewrite Ha. cbn [of_option rbind]. rewrite Hraw. cbn [of_option rbind].
    destruct (parse_ecoforest_float raw) as [v|e'] eqn:E; cbn [rbind]; intros H;
      [discriminate H |].
    injection H as <-. exact (parse_ecoforest_float_raises raw e' E). }
  destruct (String.eqb_spec (type_ d) "boolean") as [Tb | _];
    [| intros H; discriminate H].
  destruct (Hread (or_intror (or_intror Tb))) as (a & Ha & [raw Hraw]).
  rewrite Ha. cbn [of_option rbind]. rewrite Hraw. cbn [of_option rbind].
  destruct (parse_ecoforest_bool raw) as [v|e'] eqn:E; cbn [rbind]; intros H;
    [discriminate H |].
  injection H as <-. left. exact (parse_ecoforest_bool_raises raw e' E).
Qed.

Lemma decode_loop_raises (table : list (string * definition)) :
  (forall name d, In (name, d) table ->
     type_ d = "int" \/ type_ d = "float" \/ type_ d = "boolean" ->
     exists a, address d = Some a /\ is_Some (space state (data_type d) !! a)) ->
  forall acc e,
    decode_loop state table acc = Raise e -> e = ValueError \/ e = OverflowError.
Proof.
  induction table as [|[k d] rest IH]; intros Hread acc e H; [discriminate H |].
  cbn [decode_loop] in H.
  destruct (decode_field state d) as [[v|]|e'] eqn:E; cbn [rbind] in H.
  - apply (IH (fun n d' Hin => Hread n d' (or_intror Hin)) _ _ H).
  - apply (IH (fun n d' Hin => Hread n d' (or_intror Hin)) _ _ H).
  - injection H as <-.
    exact (decode_field_raises d e' (Hread k d (or_introl eq_refl)) E).
Qed.

(** The second loop does not fail when the temperatures were stored and
    the custom functions return. *)
Lemma derive_loop_returns (table : list (string * definition)) :
  forall info,
    (forall name d, In (name, d) table -> entity_type d = "temperature" ->
                    is_Some (info !! name)) ->
    (forall name d, In (name, d) table -> type_ d = "custom" ->
                    exists f, value_fn d = Some f
                              /\ forall i, exists v, f i state = Ok v) ->
    exists m, derive_loop state table info = Ok m.
Proof.
  induction table as [|[k d] rest IH]; intros info Htemp Hcustom;
    [eexists; reflexivity |].
  cbn [derive_loop].
  assert (Hstep : forall info',
             (forall name, is_Some (info !! name) -> is_Some (info' !! name)) ->
             exists m,
               (if negb (String.eqb (type_ d) "custom")
                then derive_loop state rest info'
                else let! f := item (value_fn d) in
                     let! v := f info' state in
                     derive_loop state rest (<[k := v]> info')) = Ok m).
  { intros info' Hkeep.
    destruct (String.eqb_spec (type_ d) "custom") as [Tc | _]; cbn [negb].
    - destruct (Hcustom k d (or_introl eq_refl) Tc) as (f & Hf & Hret).
      rewrite Hf. unfold item. cbn [of_option rbind].
      destruct (Hret info') as [v Hv]. rewrite Hv. cbn [rbind].
      apply IH.
      + intros name d' Hin Hent.
        apply lookup_insert_is_Some'. right. apply Hkeep.
        exact (Htemp name d' (or_intror Hin) Hent).
      + intros name d' Hin. exact (Hcustom name d' (or_intror Hin)).
    - apply IH.
      + intros name d' Hin Hent. apply Hkeep.
        exact (Htemp name d' (or_intror Hin) Hent).
      + intros name d' Hin. exact (Hcustom name d' (or_intror Hin)). }
  destruct (String.eqb_spec (entity_type d) "temperature") as [Tt | _].
  - destruct (Htemp k d (or_introl eq_refl) Tt) as [v Hv]. rewrite Hv.
    cbn [of_option rbind]. apply Hstep. intros name Hsome.
    destruct (value_eq_float v SENTINEL); [| exact Hsome].
    apply lookup_insert_is_Some'. now right.
  - cbn [rbind]. apply Hstep. intros name Hsome. exact Hsome.
Qed.

Lemma model_loop_raises (addresses : list Z) :
  (forall a, In a addresses -> is_Some (registers state !! a)) ->
  forall acc e,
    model_loop state addresses acc = Raise e -> e = ValueError \/ e = IndexError.
Proof.
  induction addresses as [|a rest IH]; intros Hread acc e H; [discriminate H |].
  cbn [model_loop] in H. unfold raw_at in H. cbn [space] in H.
  destruct (Hread a (or_introl eq_refl)) as [raw Hraw]. rewrite Hraw in H.
  cbn [of_option rbind] in H.
  destruct (parse_ecoforest_int raw) as [i|e'] eqn:E; cbn [rbind] in H.
  - destruct (list_item model_dictionary i) as [sym|e''] eqn:L; cbn [rbind] in H.
    + apply (IH (fun b Hb => Hread b (or_intror Hb)) _ _ H).
    + injection H as <-. right. exact (list_item_raises _ _ _ L).
  - injection H as <-. left. exact (parse_ecoforest_int_raises raw e' E).
Qed.

End AfterPoll.

Lemma mapping_addresses (name : string) (d : definition) :
  In (name, d) MAPPING ->
  (type_ d = "int" \/ type_ d = "float" \/ type_ d = "boolean" ->
   exists a, address d = Some a /\ covered (data_type d) a = true)
  /\ (type_ d = "custom" ->
      value_fn d = Some (fun _ raw_data => let! a := get_alarm raw_data in Ok (VInt a))).
Proof.
  intros Hin. unfold MAPPING in Hin. cbn [In] in Hin.
  repeat (destruct Hin as [Hin | Hin];
          [injection Hin as <- <-; split;
           [intros _; eexists; split; reflexivity
           | intros H; discriminate H] |]).
  destruct Hin as [Hin | []]. injection Hin as <- <-. split.
  - intros [H | [H | H]]; discriminate H.
  - intros _. reflexivity.
Qed.

Lemma alarm_table_covered (a : Z) : In a alarm_registers -> covered Coil a = true.
Proof.
  intros Ha. apply covered_coil. unfold alarm_registers in Ha. cbn [In] in Ha. lia.
Qed.

Lemma model_block_covered (a : Z) :
  In a (range MODEL_ADDRESS MODEL_LENGTH) -> covered Register a = true.
Proof.
  intros Ha. apply covered_register. apply in_range in Ha.
  unfold MODEL_ADDRESS, MODEL_LENGTH in Ha. lia.
Qed.

(** X17.  After a poll that succeeded, [get] finds every address it
    looks up: building the snapshot never raises [KeyError].  What can
    still go wrong is a raw value that is no number ([ValueError]), one
    too large for a float ([OverflowError]), or a model register whose
    index is outside the alphabet ([IndexError]). *)
Theorem snapshot_after_poll_finds_every_address
    (W : Type) (_request : W -> request -> result (list string) * W)
    (s s' : session) (state : AddressSpace) :
  poll _request s = (Ok state, s') ->
  get _request s = (snapshot state, s')
  /\ (forall e, snapshot state = Raise e ->
        e = ValueError \/ e = OverflowError \/ e = IndexError).
Proof.
  intros Hpoll. split.
  { unfold get, bind, lift. rewrite Hpoll. reflexivity. }
  pose proof (poll_reads _request s s' state Hpoll) as Hread.
  intros e Hsnap. unfold snapshot, build_device_info in Hsnap.
  destruct (decode_loop state MAPPING ∅) as [m|e1] eqn:H1; cbn [rbind] in Hsnap.
  - destruct (derive_loop_returns state MAPPING m) as [info H2].
    + intros name d Hin Hent.
      destruct (mapping_temperatures name d Hin Hent) as [Hty _].
      destruct (decode_loop_float state MAPPING mapping_keys_nodup _ _ name d
                  H1 Hin Hty) as (a & raw & x & _ & _ & _ & Hm).
      rewrite Hm. eauto.
    + intros name d Hin Hty.
      rewrite (proj2 (mapping_addresses name d Hin) Hty).
      eexists. split; [reflexivity |]. intros i.
      destruct (alarm_loop_total state alarm_registers) as (r & Hr & _).
      { intros a Ha. apply (Hread Coil). now apply alarm_table_covered. }
      exists (VInt r). unfold get_alarm. rewrite Hr. reflexivity.
    + rewrite H2 in Hsnap. cbn [rbind] in Hsnap.
      destruct (parse_model_name state) as [model|e2] eqn:H3; cbn [rbind] in Hsnap;
        [discriminate Hsnap |].
      injection Hsnap as <-.
      destruct (model_loop_raises state (range MODEL_ADDRESS MODEL_LENGTH)) with
        (acc := "") (e := e2) as [-> | ->]; [| exact H3 | tauto | tauto].
      intros a Ha. apply (Hread Register). now apply model_block_covered.
  - injection Hsnap as <-.
    destruct (decode_loop_raises state MAPPING) with (acc := (∅ : gmap string value))
      (e := e1) as [-> | ->]; [| exact H1 | tauto | tauto].
    intros name d Hin Hty.
    destruct (proj1 (mapping_addresses name d Hin) Hty) as (a & Ha & Hc).
    exists a. split; [exact Ha |]. apply Hread. exact Hc.
Qed.

Lemma snapshot_after_poll_finds_every_address_witness :
  exists state s',
    poll garbled_device fresh = (Ok state, s')
    /\ get garbled_device fresh = (Raise ValueError, s')
    /\ (forall e, snapshot state = Raise e ->
          e = ValueError \/ e = OverflowError \/ e = IndexError).
Proof.
  destruct (poll garbled_device fresh) as [[state | e] s'] eqn:H.
  - exists state, s'. split; [reflexivity |].
    destruct (snapshot_after_poll_finds_every_address unit garbled_device
                fresh s' state H) as [Hget Hraise].
    split; [| exact Hraise].
    rewrite Hget. f_equal.
    vm_compute in H. injection H as <- _. vm_compute. reflexivity.
  - exfalso. vm_compute in H. discriminate H.
Defined.
